(** * gradsflow: the Tracker and the fit engine of [Model]

    A shallow embedding of [gradsflow/models/tracker.py] and of the run-time
    part of [gradsflow/models/model.py] (step, epoch, fit), with the
    properties of the training loop stated over it.

    Python objects that are shared by reference (the two [TrackingValues]
    bundles of a tracker) live in a heap and are named by their location;
    Python exceptions are results [Raise e] that keep the state reached when
    they were raised; every hook the callback runner fires is recorded in a
    trace of events. *)

From Stdlib Require Import ZArith QArith Qabs List String Ascii Bool Lia DecimalString.
Import ListNotations.
Open Scope string_scope.
Open Scope list_scope.
Open Scope Z_scope.

(** String concatenation, kept apart from the [++] of lists. *)
Infix "+++" := String.append (right associativity, at level 60).

(** ** Exceptions and results *)

Inductive Exn : Type :=
| EpochCancel
| FitCancel
| KeyboardInterrupt
| KeyError (msg : string)
| AttributeError (msg : string)
| ConfigError (msg : string)
| Fault (tag : string).

Inductive Res (A : Type) : Type :=
| Ok (a : A)
| Raise (e : Exn).

Arguments Ok {A} a.
Arguments Raise {A} e.

Definition is_EpochCancel (e : Exn) : bool :=
  match e with EpochCancel => true | _ => false end.

Definition is_FitCancel (e : Exn) : bool :=
  match e with FitCancel => true | _ => false end.

Definition is_KeyboardInterrupt (e : Exn) : bool :=
  match e with KeyboardInterrupt => true | _ => false end.

(** ** Values shown in a table cell

    A Python [float] is a sign and a magnitude, an infinity or NaN: a
    finite float is modelled by its sign bit and the rational its magnitude
    denotes (so [-0.0] is [FFinite true 0]); the sign of a NaN is not kept,
    as no formatting shows it. *)

Inductive PyFloatVal : Type :=
| FNan
| FInf (negative : bool)
| FFinite (negative : bool) (magnitude : Q).

(** The float nearest to a rational, taken to be the rational itself. *)
Definition float_of_Q (q : Q) : PyFloatVal := FFinite (Qnum q <? 0) (Qabs q).

(** The objects other than floats that reach a cell. *)
Inductive PyObj : Type :=
| PyNone
| PyInt (z : Z)
| PyStr (s : string).

Inductive PyVal : Type :=
| PyFloat (x : PyFloatVal)
| PyOther (o : PyObj).

Definition isinstance_float (x : PyVal) : bool :=
  match x with PyFloat _ => true | PyOther _ => false end.

Definition str_int (z : Z) : string := NilZero.string_of_int (Z.to_int z).

(** [round_half_even q] is the integer nearest to the non-negative rational
    [q], ties going to the even neighbour, as Python's float formatting
    rounds. *)
Definition round_half_even (q : Q) : Z :=
  let a := Qnum q in
  let b := Zpos (Qden q) in
  let fl := a / b in
  let r := a mod b in
  match (2 * r) ?= b with
  | Lt => fl
  | Gt => fl + 1
  | Eq => if Z.even fl then fl else fl + 1
  end.

Definition pad3 (n : Z) : string :=
  let s := str_int n in
  match String.length s with
  | 1%nat => "00" +++ s
  | 2%nat => "0" +++ s
  | _ => s
  end.

(** The sign that the flag [" "] of a format gives: a space for a float
    whose sign bit is clear, a minus sign otherwise. *)
Definition sign_flag (negative : bool) : string := if negative then "-" else " ".

(** The digits of a magnitude with three decimals: the integer part, a dot
    and three decimals. *)
Definition digits_3f (magnitude : Q) : string :=
  let n := round_half_even (Qabs magnitude * 1000) in
  str_int (n / 1000) +++ "." +++ pad3 (n mod 1000).

(** The format [f"{x: .3f}"] of a float: the sign flag, then the digits of
    a finite float, [inf] for an infinity; NaN is written [" nan"]. *)
Definition format_3f (x : PyFloatVal) : string :=
  match x with
  | FNan => " nan"
  | FInf negative => sign_flag negative +++ "inf"
  | FFinite negative magnitude => sign_flag negative +++ digits_3f magnitude
  end.

(** [str(x)] for the objects that are not floats. *)
Definition str (o : PyObj) : string :=
  match o with
  | PyNone => "None"
  | PyInt z => str_int z
  | PyStr s => s
  end.

(** ** Accumulators

    Modelled from the spec: [gradsflow.core.base] is not among the sources.
    Section 3 of the spec gives a scalar stream the fields
    [{sum, count, avg, computed}] with [avg = sum / count] once a value was
    folded in and [computed = false] at first; the average of a stream that
    has seen no value is undefined ([None]). The average is the attribute
    that [create_table] reads: it holds any float. *)

Record Accumulator : Type := mkAccumulator {
  acc_sum : Q;
  acc_count : Z;
  avg : option PyFloatVal;
  computed : bool
}.

Definition new_Accumulator : Accumulator :=
  {| acc_sum := 0; acc_count := 0; avg := None; computed := false |}.

Definition update (a : Accumulator) (v : Q) : Accumulator :=
  let s := Qred (acc_sum a + v) in
  let c := acc_count a + 1 in
  {| acc_sum := s; acc_count := c; avg := Some (float_of_Q (Qred (s / inject_Z c)));
     computed := true |}.

(** Modelled from the spec: the bundle of one mode ([TrackingValues] in the
    source): its loss accumulator, its metric accumulators by name, in the
    order the names were first seen (a Python dict), and the step index
    that [train_one_epoch] and [val_one_epoch] write. *)

Record TrackingValues : Type := mkTrackingValues {
  loss : Accumulator;
  metrics : list (string * Accumulator);
  steps : option Z
}.

Definition new_TrackingValues : TrackingValues :=
  {| loss := new_Accumulator; metrics := []; steps := None |}.

Definition update_loss (tv : TrackingValues) (v : Q) : TrackingValues :=
  {| loss := update (loss tv) v; metrics := metrics tv; steps := steps tv |}.

(** One metric folded in: an existing name keeps its place in the mapping, a
    new name is created at the end. *)
Fixpoint update_metric (ms : list (string * Accumulator)) (k : string) (v : Q)
  : list (string * Accumulator) :=
  match ms with
  | [] => [(k, update new_Accumulator v)]
  | (k', a) :: rest =>
      if String.eqb k' k then (k', update a v) :: rest
      else (k', a) :: update_metric rest k v
  end.

Definition update_metrics (tv : TrackingValues) (m : list (string * Q)) : TrackingValues :=
  {| loss := loss tv;
     metrics := fold_left (fun ms kv => update_metric ms (fst kv) (snd kv)) m (metrics tv);
     steps := steps tv |}.

(** ** The heap of bundles *)

Definition loc : Type := nat.

Definition Heap : Type := list TrackingValues.

Definition allocated (h : Heap) (l : loc) : Prop := (l < List.length h)%nat.

(** A location that was never allocated reads as a fresh bundle; no state
    the program builds holds one. *)
Definition deref (h : Heap) (l : loc) : TrackingValues := nth l h new_TrackingValues.

Definition alloc (h : Heap) (v : TrackingValues) : loc * Heap :=
  (List.length h, h ++ [v]).

Fixpoint store (h : Heap) (l : loc) (v : TrackingValues) : Heap :=
  match h, l with
  | [], _ => []
  | _ :: rest, O => v :: rest
  | x :: rest, S l' => x :: store rest l' v
  end.

(** ** The tracker *)

Record LogRecord : Type := mkLogRecord {
  log_epoch : Z;
  log_key : string;
  log_value : Q
}.

Record Tracker : Type := mkTracker {
  train : loc;
  val : loc;
  max_epochs : Z;
  current_epoch : Z;
  steps_per_epoch : option Z;
  logs : list LogRecord
}.

(** A tracker object together with the heap its bundles live in. *)
Record Mem : Type := mkMem {
  heap : Heap;
  tracker : Tracker
}.

Definition set_heap (m : Mem) (h : Heap) : Mem :=
  {| heap := h; tracker := tracker m |}.

Definition set_tracker (m : Mem) (t : Tracker) : Mem :=
  {| heap := heap m; tracker := t |}.

Definition set_current_epoch (m : Mem) (e : Z) : Mem :=
  let t := tracker m in
  set_tracker m {| train := train t; val := val t; max_epochs := max_epochs t;
                   current_epoch := e; steps_per_epoch := steps_per_epoch t;
                   logs := logs t |}.

Definition set_max_epochs (m : Mem) (n : Z) : Mem :=
  let t := tracker m in
  set_tracker m {| train := train t; val := val t; max_epochs := n;
                   current_epoch := current_epoch t; steps_per_epoch := steps_per_epoch t;
                   logs := logs t |}.

Definition set_steps_per_epoch (m : Mem) (n : option Z) : Mem :=
  let t := tracker m in
  set_tracker m {| train := train t; val := val t; max_epochs := max_epochs t;
                   current_epoch := current_epoch t; steps_per_epoch := n;
                   logs := logs t |}.

Definition set_logs (m : Mem) (l : list LogRecord) : Mem :=
  let t := tracker m in
  set_tracker m {| train := train t; val := val t; max_epochs := max_epochs t;
                   current_epoch := current_epoch t; steps_per_epoch := steps_per_epoch t;
                   logs := l |}.

(** Modelled from the spec: the tracker as [BaseTracker] and
    [Tracker.__init__] leave it: the counters at their defaults, two bundles
    with empty metric mappings, no log. *)
Definition new_Mem : Mem :=
  {| heap := [new_TrackingValues; new_TrackingValues];
     tracker := {| train := 0%nat; val := 1%nat; max_epochs := 0; current_epoch := 0;
                   steps_per_epoch := None; logs := [] |} |}.

Definition train_loss (m : Mem) : option PyFloatVal :=
  avg (loss (deref (heap m) (train (tracker m)))).

Definition val_loss (m : Mem) : option PyFloatVal :=
  avg (loss (deref (heap m) (val (tracker m)))).

Definition train_metrics (m : Mem) : list (string * Accumulator) :=
  metrics (deref (heap m) (train (tracker m))).

Definition val_metrics (m : Mem) : list (string * Accumulator) :=
  metrics (deref (heap m) (val (tracker m))).

(** [Tracker.mode]: the bundle of a mode, by reference. *)
Definition mode (m : Mem) (mode_name : string) : Res loc :=
  if String.eqb mode_name "train" then Ok (train (tracker m))
  else if String.eqb mode_name "val" then Ok (val (tracker m))
  else Raise (KeyError ("mode " +++ mode_name +++ " is not implemented!")).

(** What [Tracker.__getitem__] can return. *)
Inductive Item : Type :=
| ItemBundle (l : loc)
| ItemMetrics (train_m val_m : list (string * Accumulator))
| ItemLoss (train_l val_l : option PyFloatVal).

Definition getitem (m : Mem) (key : string) : Res Item :=
  if String.eqb key "train" || String.eqb key "val" then
    match mode m key with
    | Ok l => Ok (ItemBundle l)
    | Raise e => Raise e
    end
  else if String.eqb key "metrics" then Ok (ItemMetrics (train_metrics m) (val_metrics m))
  else if String.eqb key "loss" then Ok (ItemLoss (train_loss m) (val_loss m))
  else Raise (KeyError ("key " +++ key +++ " is not implemented!")).

(** Modelled from the spec: [to_item] "converts tensor/scalar to a plain
    number"; the values of the model are plain numbers already. *)
Definition to_item (v : Q) : Q := v.

Definition _append_logs (m : Mem) (key : string) (value : Q) : Mem :=
  let epoch := current_epoch (tracker m) in
  let data := {| log_epoch := epoch; log_key := key; log_value := to_item value |} in
  set_logs m (logs (tracker m) ++ [data]).

Definition track_loss (m : Mem) (loss_v : Q) (mode_name : string) : Res unit * Mem :=
  let loss_v := to_item loss_v in
  match mode m mode_name with
  | Raise e => (Raise e, m)
  | Ok value_tracker =>
      let m1 := set_heap m (store (heap m) value_tracker
                              (update_loss (deref (heap m) value_tracker) loss_v)) in
      let key := mode_name +++ "/" +++ "loss" in
      (Ok tt, _append_logs m1 key loss_v)
  end.

Definition track_metrics (m : Mem) (metric : list (string * Q)) (mode_name : string)
  : Res unit * Mem :=
  match mode m mode_name with
  | Raise e => (Raise e, m)
  | Ok value_tracker =>
      let m1 := set_heap m (store (heap m) value_tracker
                              (update_metrics (deref (heap m) value_tracker) metric)) in
      (Ok tt,
       fold_left (fun acc kv => _append_logs acc (mode_name +++ "/" +++ fst kv) (snd kv))
                 metric m1)
  end.

(** The table [create_table] builds: the column headings and the rows added
    to it (rich's [Table] is only a container here). *)
Record Table : Type := mkTable {
  headings : list string;
  rows : list (list string)
}.

Definition of_avg (a : option PyFloatVal) : PyVal :=
  match a with Some x => PyFloat x | None => PyOther PyNone end.

(** [f"{x: .3f}" if isinstance(x, float) else str(x)]. *)
Definition cell (x : PyVal) : string :=
  match x with
  | PyFloat f => format_3f f
  | PyOther o => str o
  end.

Definition create_table (m : Mem) : Table :=
  let headings0 := ["i"; "train/loss"] in
  let row0 := [PyOther (PyInt (current_epoch (tracker m))); of_avg (train_loss m)] in
  let '(headings1, row1) :=
    if computed (loss (deref (heap m) (val (tracker m))))
    then (headings0 ++ ["val/loss"], row0 ++ [of_avg (val_loss m)])
    else (headings0, row0) in
  let '(headings2, row2) :=
    fold_left (fun hr kv => (fst hr ++ ["train/" +++ fst kv], snd hr ++ [of_avg (avg (snd kv))]))
              (train_metrics m) (headings1, row1) in
  let '(headings3, row3) :=
    fold_left (fun hr kv => (fst hr ++ ["val/" +++ fst kv], snd hr ++ [of_avg (avg (snd kv))]))
              (val_metrics m) (headings2, row2) in
  {| headings := headings3; rows := [map cell row3] |}.

(** [Tracker.reset]: the counters back to their defaults, two bundles newly
    allocated, a new empty log. *)
Definition reset (m : Mem) : Mem :=
  let '(l_train, h1) := alloc (heap m) new_TrackingValues in
  let '(l_val, h2) := alloc h1 new_TrackingValues in
  {| heap := h2;
     tracker := {| train := l_train; val := l_val; max_epochs := 0; current_epoch := 0;
                   steps_per_epoch := None; logs := [] |} |}.

(** A text that ends in a dot and three decimal digits. *)
Definition is_digit (c : ascii) : bool :=
  let n := nat_of_ascii c in (48 <=? n)%nat && (n <=? 57)%nat.

Definition three_decimals (s : string) : bool :=
  match rev (list_ascii_of_string s) with
  | d3 :: d2 :: d1 :: dot :: _ =>
      is_digit d1 && is_digit d2 && is_digit d3 && Ascii.eqb dot "."%char
  | _ => false
  end.

(** What of a tracker can be read through its attributes: the counters, the
    log and the contents of the two bundles (not their identity). *)
Record Observation : Type := mkObservation {
  obs_train : TrackingValues;
  obs_val : TrackingValues;
  obs_max_epochs : Z;
  obs_current_epoch : Z;
  obs_steps_per_epoch : option Z;
  obs_logs : list LogRecord
}.

Definition observe (m : Mem) : Observation :=
  {| obs_train := deref (heap m) (train (tracker m));
     obs_val := deref (heap m) (val (tracker m));
     obs_max_epochs := max_epochs (tracker m);
     obs_current_epoch := current_epoch (tracker m);
     obs_steps_per_epoch := steps_per_epoch (tracker m);
     obs_logs := logs (tracker m) |}.

(** The contents of the train bundle and of the val bundle. *)
Definition observe_bundles (m : Mem) : TrackingValues * TrackingValues :=
  (deref (heap m) (train (tracker m)), deref (heap m) (val (tracker m))).

(** ** Hooks, events and loops *)

Inductive Hook : Type :=
| on_fit_start | on_fit_end
| on_epoch_start | on_epoch_end
| on_train_epoch_start | on_train_epoch_end
| on_val_epoch_start | on_val_epoch_end
| on_train_step_start | on_train_step_end
| on_val_step_start | on_val_step_end
| on_forward_start | on_forward_end
| clean_hook.

Definition Hook_eqb (a b : Hook) : bool :=
  match a, b with
  | on_fit_start, on_fit_start | on_fit_end, on_fit_end
  | on_epoch_start, on_epoch_start | on_epoch_end, on_epoch_end
  | on_train_epoch_start, on_train_epoch_start | on_train_epoch_end, on_train_epoch_end
  | on_val_epoch_start, on_val_epoch_start | on_val_epoch_end, on_val_epoch_end
  | on_train_step_start, on_train_step_start | on_train_step_end, on_train_step_end
  | on_val_step_start, on_val_step_start | on_val_step_end, on_val_step_end
  | on_forward_start, on_forward_start | on_forward_end, on_forward_end
  | clean_hook, clean_hook => true
  | _, _ => false
  end.

(** An event of the trace: a hook the runner fired, with the value of
    [tracker.current_epoch] when it was fired, or a line given to the
    logger by [fit]. *)
Inductive Event : Type :=
| Fired (h : Hook) (epoch : Z)
| Logged (msg : string).

Definition fired (h : Hook) (e : Event) : bool :=
  match e with Fired h' _ => Hook_eqb h h' | Logged _ => false end.

Definition count_fired (h : Hook) (evs : list Event) : nat :=
  List.length (filter (fired h) evs).

(** The hooks among the events, in order. *)
Fixpoint hooks_of (evs : list Event) : list Hook :=
  match evs with
  | [] => []
  | Fired h _ :: rest => h :: hooks_of rest
  | Logged _ :: rest => hooks_of rest
  end.

Definition is_epoch_hook (h : Hook) : bool :=
  match h with on_epoch_start | on_epoch_end => true | _ => false end.

Definition is_val_epoch_hook (h : Hook) : bool :=
  match h with on_val_epoch_start | on_val_epoch_end => true | _ => false end.

(** The hooks fired while the train part of an epoch runs. *)
Definition is_train_phase (h : Hook) : bool :=
  match h with
  | on_train_epoch_start | on_train_epoch_end
  | on_train_step_start | on_train_step_end
  | on_forward_start | on_forward_end => true
  | _ => false
  end.

(** The hooks fired while the validation part of an epoch runs. *)
Definition is_val_phase (h : Hook) : bool :=
  match h with
  | on_val_epoch_start | on_val_epoch_end
  | on_val_step_start | on_val_step_end
  | on_forward_start | on_forward_end => true
  | _ => false
  end.

(** Every hook but the teardown. *)
Definition is_run_hook (h : Hook) : bool := negb (Hook_eqb h clean_hook).

(** An event is a log line or the firing of a hook that [ok] accepts. *)
Definition only (ok : Hook -> bool) (ev : Event) : Prop :=
  match ev with
  | Fired h _ => ok h = true
  | Logged _ => True
  end.

(** The hooks of one train step, in the order they are fired. *)
Definition train_step_hooks : list Hook :=
  [on_train_step_start; on_forward_start; on_forward_end; on_train_step_end].

(** The hooks of one validation step, in the order they are fired. *)
Definition val_step_hooks : list Hook :=
  [on_val_step_start; on_forward_start; on_forward_end; on_val_step_end].

(** The hooks fired between [on_epoch_start] and [on_epoch_end]. *)
Definition is_inner_hook (h : Hook) : bool := is_train_phase h || is_val_phase h.

(** [enumerate(l)], counting from [i]. *)
Fixpoint enumerate_from {A : Type} (i : Z) (l : list A) : list (Z * A) :=
  match l with
  | [] => []
  | x :: rest => (i, x) :: enumerate_from (i + 1) rest
  end.

Definition enumerate {A : Type} (l : list A) : list (Z * A) := enumerate_from 0 l.

(** [range(a, b)]. *)
Definition range (a b : Z) : list Z :=
  map (fun k => a + Z.of_nat k) (seq 0 (Z.to_nat (b - a))).

(** The guard [steps_per_epoch and step >= steps_per_epoch]: [None] and [0]
    are falsy, so the comparison is made for a non-zero bound only. *)
Definition step_limit_hit (steps_per_epoch : option Z) (step : Z) : bool :=
  match steps_per_epoch with
  | None => false
  | Some n => negb (n =? 0) && (step >=? n)
  end.

(** The runner's hooks for a scope name: [on_<name>_start] and
    [on_<name>_end]. *)
Definition scope_hooks (name : string) : option (Hook * Hook) :=
  if String.eqb name "fit" then Some (on_fit_start, on_fit_end)
  else if String.eqb name "epoch" then Some (on_epoch_start, on_epoch_end)
  else if String.eqb name "train_epoch" then Some (on_train_epoch_start, on_train_epoch_end)
  else if String.eqb name "val_epoch" then Some (on_val_epoch_start, on_val_epoch_end)
  else if String.eqb name "train_step" then Some (on_train_step_start, on_train_step_end)
  else if String.eqb name "val_step" then Some (on_val_step_start, on_val_step_end)
  else if String.eqb name "forward" then Some (on_forward_start, on_forward_end)
  else None.

(** ** The engine

    The collaborators of [Model] (the learner, the loss, the metrics, the
    dataset, the callbacks) are parameters. Each acts on a private state of
    type [U]; a callback also sees the tracker. A callback is named by an
    identifier, and [handler] gives what it does on each hook; the hooks
    [on_train_step_end] and [on_val_step_end] receive the batch and the
    outputs of the step. *)

Section Engine.

Context {Batch Tensor Metrics CbId U : Type}.

(** The tracker's memory and the collaborators' state: what a run changes. *)
Record World : Type := mkWorld {
  mem : Mem;
  user : U
}.

Record Outputs : Type := mkOutputs {
  out_loss : Tensor;
  out_metrics : Metrics
}.

Record AutoDataset : Type := mkAutoDataset {
  train_dataloader : list Batch;
  val_dataloader : option (list Batch)
}.

Record Env : Type := mkEnv {
  fetch_inputs : Batch -> Tensor;
  fetch_target : Batch -> Tensor;
  forward : Tensor -> U -> Res Tensor * U;
  loss_fn : Tensor -> Tensor -> U -> Res Tensor * U;
  metrics_update : Tensor -> Tensor -> U -> Res unit * U;
  metrics_compute : U -> Res Metrics * U;
  prepare_data : AutoDataset -> U -> Res AutoDataset * U;
  handler : CbId -> Hook -> option (Batch * Outputs) -> World -> Res unit * World;
  ProgressCallback : CbId
}.

(** The attributes of a [Model] that the loops read and only [fit] assigns;
    [self.tracker] is the tracker of the world. [TEST] is the class
    attribute set from the environment variable [GF_CI]. *)
Record Model : Type := mkModel {
  TEST : bool;
  autodataset : option AutoDataset;
  callback_runner : list CbId;
  _compiled : bool
}.

Variable env : Env.

(** *** Computations: a result, the world reached, the events fired *)

Record Out (A : Type) : Type := mkOut {
  res : Res A;
  post : World;
  evs : list Event
}.

Arguments mkOut {A} res post evs.
Arguments res {A} o.
Arguments post {A} o.
Arguments evs {A} o.

Definition M (A : Type) : Type := World -> Out A.

Definition ret {A : Type} (a : A) : M A :=
  fun w => mkOut (Ok a) w [].

Definition raise {A : Type} (e : Exn) : M A :=
  fun w => mkOut (Raise e) w [].

Definition bind {A B : Type} (m : M A) (k : A -> M B) : M B :=
  fun w =>
    let o := m w in
    match res o with
    | Ok a => let o' := k a (post o) in mkOut (res o') (post o') (evs o ++ evs o')
    | Raise e => mkOut (Raise e) (post o) (evs o)
    end.

Notation "x <- c1 ;; c2" := (bind c1 (fun x => c2))
  (at level 61, c1 at next level, right associativity).
Notation "c1 ;; c2" := (bind c1 (fun _ => c2))
  (at level 61, right associativity).

(** [try: m  except <caught>: h]. *)
Definition try_except {A : Type} (m : M A) (caught : Exn -> bool) (h : M A) : M A :=
  fun w =>
    let o := m w in
    match res o with
    | Ok a => o
    | Raise e =>
        if caught e
        then let o' := h (post o) in mkOut (res o') (post o') (evs o ++ evs o')
        else o
    end.

(** [try: m  finally: fin]: [fin] always runs; what it raises replaces the
    outcome of [m]. *)
Definition try_finally {A : Type} (m : M A) (fin : M unit) : M A :=
  fun w =>
    let o := m w in
    let o' := fin (post o) in
    mkOut (match res o' with Ok _ => res o | Raise e => Raise e end)
          (post o') (evs o ++ evs o').

Definition modify_mem (f : Mem -> Mem) : M unit :=
  fun w => mkOut (Ok tt) {| mem := f (mem w); user := user w |} [].

Definition log_info (msg : string) : M unit :=
  fun w => mkOut (Ok tt) w [Logged msg].

(** A call into a collaborator. *)
Definition call {A : Type} (f : U -> Res A * U) : M A :=
  fun w => let r := f (user w) in mkOut (fst r) {| mem := mem w; user := snd r |} [].

(** *** The callback runner

    Modelled from the spec: [gradsflow.callbacks] is not among the sources.
    Section 4.3: the dispatch methods "broadcast to every registered
    callback in registration order"; an exception of a callback ends the
    broadcast and propagates. *)

Fixpoint broadcast (cbs : list CbId) (h : Hook) (payload : option (Batch * Outputs))
  : M unit :=
  match cbs with
  | [] => ret tt
  | c :: rest =>
      (fun w => let r := handler env c h payload w in mkOut (fst r) (snd r) []) ;;
      broadcast rest h payload
  end.

(** [self.callback_runner.on_<hook>(...)]. *)
Definition fire (self : Model) (h : Hook) (payload : option (Batch * Outputs)) : M unit :=
  fun w =>
    let o := broadcast (callback_runner self) h payload w in
    mkOut (res o) (post o) (Fired h (current_epoch (tracker (mem w))) :: evs o).

(** Modelled from the spec: [with_event(name, body, cancel_signal)]
    "executes on_{name}_start, runs body(), executes on_{name}_end, but if
    body raises cancel_signal the exception is swallowed after still
    running on_{name}_end". The signal is also swallowed when a callback
    raises it from the start hook of the scope ("a callback cancels a scope
    by raising that scope's designated sentinel from within a hook invoked
    during that scope"); what the end hook raises propagates. *)
Definition with_event (self : Model) (name : string) (body : M unit)
  (cancel_signal : Exn -> bool) : M unit :=
  match scope_hooks name with
  | Some (h_start, h_end) =>
      try_except (fire self h_start None ;; body) cancel_signal (ret tt) ;;
      fire self h_end None
  | None => raise (AttributeError ("on_" +++ name +++ "_start"))
  end.

(** Modelled from the spec: [clean()] is the "lifecycle teardown hook ...
    to let callbacks release resources". *)
Definition clean (self : Model) : M unit := fire self clean_hook None.

(** [CallbackRunner.append]. *)
Definition append (self : Model) (c : CbId) : Model :=
  {| TEST := TEST self; autodataset := autodataset self;
     callback_runner := callback_runner self ++ [c]; _compiled := _compiled self |}.

(** Modelled from the spec: "calling fit while NOT_COMPILED fails with a
    configuration error". *)
Definition assert_compiled (self : Model) : M unit :=
  if _compiled self then ret tt else raise (ConfigError "assert compiled").

(** *** [Model]: step, epoch, fit *)

Definition forward_once (self : Model) (x : Tensor) : M Tensor :=
  fire self on_forward_start None ;;
  x <- call (forward env x) ;;
  fire self on_forward_end None ;;
  ret x.

Definition calculate_metrics (self : Model) (preds target : Tensor) : M Metrics :=
  call (metrics_update env preds target) ;;
  call (metrics_compute env).

Definition step (self : Model) (batch : Batch) : M Outputs :=
  let inputs := fetch_inputs env batch in
  let target := fetch_target env batch in
  logits <- forward_once self inputs ;;
  loss_v <- call (loss_fn env logits target) ;;
  metrics_v <- calculate_metrics self logits target ;;
  ret {| out_loss := loss_v; out_metrics := metrics_v |}.

Definition train_step (self : Model) (batch : Batch) : M Outputs := step self batch.

Definition val_step (self : Model) (batch : Batch) : M Outputs := step self batch.

(** [tracker.train.steps = step] and [tracker.val.steps = step]. *)
Definition set_steps (tv : TrackingValues) (n : Z) : TrackingValues :=
  {| loss := loss tv; metrics := metrics tv; steps := Some n |}.

Definition set_train_steps (n : Z) : M unit :=
  modify_mem (fun m =>
    let l := train (tracker m) in
    set_heap m (store (heap m) l (set_steps (deref (heap m) l) n))).

Definition set_val_steps (n : Z) : M unit :=
  modify_mem (fun m =>
    let l := val (tracker m) in
    set_heap m (store (heap m) l (set_steps (deref (heap m) l) n))).

(** The body of the [for] loop of [train_one_epoch], up to its two
    [break]s. *)
Definition train_iteration (self : Model) (step_i : Z) (batch : Batch) : M unit :=
  set_train_steps step_i ;;
  fire self on_train_step_start None ;;
  outputs <- train_step self batch ;;
  fire self on_train_step_end (Some (batch, outputs)).

Fixpoint train_loop (self : Model) (steps_per_epoch : option Z)
  (items : list (Z * Batch)) : M unit :=
  match items with
  | [] => ret tt
  | (step_i, batch) :: rest =>
      train_iteration self step_i batch ;;
      if TEST self then ret tt
      else if step_limit_hit steps_per_epoch step_i then ret tt
      else train_loop self steps_per_epoch rest
  end.

Definition train_one_epoch (self : Model) (train_dataloader : list Batch) : M unit :=
  fun w =>
    let steps_per_epoch := steps_per_epoch (tracker (mem w)) in
    train_loop self steps_per_epoch (enumerate train_dataloader) w.

Definition val_iteration (self : Model) (step_i : Z) (batch : Batch) : M unit :=
  set_val_steps step_i ;;
  fire self on_val_step_start None ;;
  outputs <- val_step self batch ;;
  fire self on_val_step_end (Some (batch, outputs)).

Fixpoint val_loop (self : Model) (items : list (Z * Batch)) : M unit :=
  match items with
  | [] => ret tt
  | (step_i, batch) :: rest =>
      val_iteration self step_i batch ;;
      if TEST self then ret tt else val_loop self rest
  end.

Definition val_one_epoch (self : Model) (val_dataloader : list Batch) : M unit :=
  val_loop self (enumerate val_dataloader).

Definition _train_epoch_with_event (self : Model) : M unit :=
  match autodataset self with
  | None => raise (AttributeError "train_dataloader")
  | Some ds =>
      let train_dataloader := train_dataloader ds in
      fire self on_train_epoch_start None ;;
      train_one_epoch self train_dataloader ;;
      fire self on_train_epoch_end None
  end.

(** [not autodataset.val_dataloader] holds of [None] and of a loader with
    no batch (a sequence of length 0). *)
Definition falsy_loader (l : option (list Batch)) : bool :=
  match l with
  | None | Some [] => true
  | Some (_ :: _) => false
  end.

Definition _val_epoch_with_event (self : Model) : M unit :=
  match autodataset self with
  | None => raise (AttributeError "val_dataloader")
  | Some ds =>
      if falsy_loader (val_dataloader ds) then ret tt
      else
        let val_dataloader := match val_dataloader ds with Some l => l | None => [] end in
        fire self on_val_epoch_start None ;;
        val_one_epoch self val_dataloader ;;
        fire self on_val_epoch_end None
  end.

(** The body of the [for] loop of [epoch], up to its [break]. *)
Definition epoch_iteration (self : Model) (epoch_i : Z) : M unit :=
  modify_mem (fun m => set_current_epoch m epoch_i) ;;
  fire self on_epoch_start None ;;
  _train_epoch_with_event self ;;
  _val_epoch_with_event self ;;
  fire self on_epoch_end None.

Fixpoint epoch_loop (self : Model) (epochs : list Z) : M unit :=
  match epochs with
  | [] => ret tt
  | epoch_i :: rest =>
      epoch_iteration self epoch_i ;;
      if TEST self then ret tt else epoch_loop self rest
  end.

Definition epoch (self : Model) : M unit :=
  fun w =>
    let current_epoch := current_epoch (tracker (mem w)) in
    let max_epochs := max_epochs (tracker (mem w)) in
    epoch_loop self (range current_epoch max_epochs) w.

Definition _fit_with_event (self : Model) : M unit :=
  fire self on_fit_start None ;;
  with_event self "epoch" (epoch self) is_EpochCancel ;;
  fire self on_fit_end None.

(** The statements of [fit] before its [try]: the model is checked, the
    dataset bound and prepared, the tracker reset unless [resume], the
    callbacks registered, the two bounds written to the tracker. The value
    is the model with its attributes as assigned. [progress_kwargs] only
    configures the progress display and is left out. *)
Definition fit_setup (self : Model) (autodataset : AutoDataset) (max_epochs : Z)
  (steps_per_epoch : option Z) (callbacks : list CbId) (resume show_progress : bool)
  : M Model :=
  assert_compiled self ;;
  ds <- call (prepare_data env autodataset) ;;
  let self := {| TEST := TEST self; autodataset := Some ds;
                 callback_runner := callback_runner self; _compiled := _compiled self |} in
  (if negb resume then modify_mem reset else ret tt) ;;
  let self := if show_progress then append self (ProgressCallback env) else self in
  let self := fold_left append callbacks self in
  modify_mem (fun m => set_steps_per_epoch m steps_per_epoch) ;;
  modify_mem (fun m => set_max_epochs m max_epochs) ;;
  ret self.

(** The [try] statement of [fit]. *)
Definition fit_run (self : Model) : M unit :=
  try_finally
    (try_except (with_event self "fit" (_fit_with_event self) is_FitCancel)
                is_KeyboardInterrupt
                (log_info "Keyboard interruption detected"))
    (clean self).

Definition fit (self : Model) (autodataset : AutoDataset) (max_epochs : Z)
  (steps_per_epoch : option Z) (callbacks : list CbId) (resume show_progress : bool)
  : M (Model * Tracker) :=
  self <- fit_setup self autodataset max_epochs steps_per_epoch callbacks resume show_progress ;;
  fit_run self ;;
  (fun w => mkOut (Ok (self, tracker (mem w))) w []).

End Engine.

Arguments mkOut {U A} res post evs.
Arguments res {U A} o.
Arguments post {U A} o.
Arguments evs {U A} o.

(** The loop of [train_one_epoch] without its two [break]s: every batch is
    stepped. *)
Section AllBatches.

Context {Batch Tensor Metrics CbId U : Type}.
Variable env : @Env Batch Tensor Metrics CbId U.

Fixpoint all_batches (self : Model) (items : list (Z * Batch)) : M unit :=
  match items with
  | [] => ret tt
  | (step_i, batch) :: rest =>
      bind (train_iteration env self step_i batch) (fun _ => all_batches self rest)
  end.

(** No callback and no collaborator raises. *)
Definition quiet : Prop :=
  (forall c h p w, fst (handler env c h p w) = Ok tt)
  /\ (forall x u, exists y, fst (forward env x u) = Ok y)
  /\ (forall x y u, exists l, fst (loss_fn env x y u) = Ok l)
  /\ (forall x y u, fst (metrics_update env x y u) = Ok tt)
  /\ (forall u, exists v, fst (metrics_compute env u) = Ok v).

End AllBatches.

(** ** A small instance

    Batches are numbers, tensors are rationals, metrics are named rationals
    and the collaborators keep no state. The learner returns its input, the
    loss of a step is the input over [4], the only metric is ["acc"]. *)

Inductive ToyCallback : Type :=
| Quiet
| TrainEval
| RaiseOn (h : Hook) (e : Exn)
| CancelFirstTrainStep.

Definition ToyWorld : Type := @World unit.
Definition ToyOutputs : Type := @Outputs Q (list (string * Q)).
Definition ToyModel : Type := @Model nat ToyCallback.

(** [TrainEval] tracks the loss and the metrics of a step at its end, as
    the docstring of [track_loss] says of [TrainEvalCallback];
    [CancelFirstTrainStep] raises [EpochCancel] at the end of the first
    train step of the first epoch; [RaiseOn h e] raises [e] on hook [h]. *)
Definition toy_handler (c : ToyCallback) (h : Hook) (payload : option (nat * ToyOutputs))
  (w : ToyWorld) : Res unit * ToyWorld :=
  match c with
  | Quiet => (Ok tt, w)
  | TrainEval =>
      match h, payload with
      | on_train_step_end, Some (_, o) =>
          let m1 := snd (track_loss (mem w) (out_loss o) "train") in
          let m2 := snd (track_metrics m1 (out_metrics o) "train") in
          (Ok tt, {| mem := m2; user := user w |})
      | on_val_step_end, Some (_, o) =>
          let m1 := snd (track_loss (mem w) (out_loss o) "val") in
          let m2 := snd (track_metrics m1 (out_metrics o) "val") in
          (Ok tt, {| mem := m2; user := user w |})
      | _, _ => (Ok tt, w)
      end
  | RaiseOn h' e => if Hook_eqb h h' then (Raise e, w) else (Ok tt, w)
  | CancelFirstTrainStep =>
      let m := mem w in
      match h, steps (deref (heap m) (train (tracker m))) with
      | on_train_step_end, Some 0 =>
          if current_epoch (tracker m) =? 0 then (Raise EpochCancel, w) else (Ok tt, w)
      | _, _ => (Ok tt, w)
      end
  end.

Definition toy_env (prepare_fails : bool) : @Env nat Q (list (string * Q)) ToyCallback unit :=
  {| fetch_inputs := fun b => inject_Z (Z.of_nat b);
     fetch_target := fun b => inject_Z (Z.of_nat b);
     forward := fun x u => (Ok x, u);
     loss_fn := fun logits target u => (Ok (Qred (logits / 4)), u);
     metrics_update := fun _ _ u => (Ok tt, u);
     metrics_compute := fun u => (Ok [("acc", 1 # 2)], u);
     prepare_data := fun ds u =>
       if prepare_fails then (Raise (Fault "prepare_data"), u) else (Ok ds, u);
     handler := toy_handler;
     ProgressCallback := Quiet |}.

Definition toy_dataset (n : nat) : @AutoDataset nat :=
  {| train_dataloader := seq 1 n; val_dataloader := None |}.

(** A compiled model, [TEST] off, with the given callbacks registered. *)
Definition toy_model (cbs : list ToyCallback) (ds : option (@AutoDataset nat)) : ToyModel :=
  {| TEST := false; autodataset := ds; callback_runner := cbs; _compiled := true |}.

Definition toy_world (m : Mem) : ToyWorld := {| mem := m; user := tt |}.

(** The same collaborators with one kind of callback, which behaves as
    [TrainEval]: no callback of this instance raises. *)
Definition calm_env : @Env nat Q (list (string * Q)) unit unit :=
  {| fetch_inputs := fetch_inputs (toy_env false);
     fetch_target := fetch_target (toy_env false);
     forward := forward (toy_env false);
     loss_fn := loss_fn (toy_env false);
     metrics_update := metrics_update (toy_env false);
     metrics_compute := metrics_compute (toy_env false);
     prepare_data := prepare_data (toy_env false);
     handler := fun _ h p w => toy_handler TrainEval h p w;
     ProgressCallback := tt |}.

Definition calm_model (ds : option (@AutoDataset nat)) : @Model nat unit :=
  {| TEST := false; autodataset := ds; callback_runner := [tt]; _compiled := true |}.


Definition three_epochs_world : ToyWorld := toy_world (set_max_epochs new_Mem 3).

(** A tracker with [steps_per_epoch = n]. *)
Definition limited_world (n : Z) : ToyWorld :=
  toy_world (set_steps_per_epoch new_Mem (Some n)).

(** A tracker in the middle of a run: epoch 3, two train losses, two val
    metrics. *)
Definition used_mem : Mem :=
  let m0 := set_current_epoch new_Mem 3 in
  let m1 := snd (track_loss m0 (1 # 3) "train") in
  let m2 := snd (track_loss m1 (1 # 2) "train") in
  snd (track_metrics m2 [("acc", 1 # 2); ("f1", 2 # 3)] "val").

(** The world a first call of [fit] for two epochs leaves. *)
Definition after_first_fit : ToyWorld :=
  post (fit (toy_env false) (toy_model [TrainEval] None) (toy_dataset 2) 2 None []
            true false (toy_world new_Mem)).



Definition pad3_ok (k : Z) : bool :=
  match list_ascii_of_string (pad3 k) with
  | [a; b; c] => is_digit a && is_digit b && is_digit c
  | _ => false
  end.

(** The model of the calm instance in test mode. *)
Definition calm_test_model (ds : option (@AutoDataset nat)) : @Model nat unit :=
  {| TEST := true; autodataset := ds; callback_runner := [tt]; _compiled := true |}.

(** A dataset with [n] train batches and [k] validation batches. *)
Definition toy_dataset_val (n k : nat) : @AutoDataset nat :=
  {| train_dataloader := seq 1 n; val_dataloader := Some (seq 1 k) |}.

(** The calm instance with a learner that fails on the batch [2]. *)
Definition fault_env : @Env nat Q (list (string * Q)) unit unit :=
  {| fetch_inputs := fetch_inputs calm_env;
     fetch_target := fetch_target calm_env;
     forward := fun x u => if Qeq_bool x 2 then (Raise (Fault "forward"), u) else (Ok x, u);
     loss_fn := loss_fn calm_env;
     metrics_update := metrics_update calm_env;
     metrics_compute := metrics_compute calm_env;
     prepare_data := prepare_data calm_env;
     handler := handler calm_env;
     ProgressCallback := tt |}.

(** * Properties of the tracker *)

Section TrackerProperties.

Lemma reset_heap (m : Mem) :
  heap (reset m) = heap m ++ [new_TrackingValues; new_TrackingValues].
Proof.
  unfold reset, alloc; simpl.
  now rewrite <- app_assoc.
Qed.

Lemma reset_train (m : Mem) : train (tracker (reset m)) = List.length (heap m).
Proof. reflexivity. Qed.

Lemma reset_val (m : Mem) : val (tracker (reset m)) = S (List.length (heap m)).
Proof.
  unfold reset, alloc; simpl.
  rewrite length_app; simpl; lia.
Qed.

Lemma reset_deref_train (m : Mem) :
  deref (heap (reset m)) (train (tracker (reset m))) = new_TrackingValues.
Proof.
  rewrite reset_heap, reset_train; unfold deref.
  rewrite app_nth2 by lia.
  now rewrite Nat.sub_diag.
Qed.

Lemma reset_deref_val (m : Mem) :
  deref (heap (reset m)) (val (tracker (reset m))) = new_TrackingValues.
Proof.
  rewrite reset_heap, reset_val; unfold deref.
  rewrite app_nth2 by lia.
  replace (S (List.length (heap m)) - List.length (heap m))%nat with 1%nat by lia.
  reflexivity.
Qed.

Lemma observe_reset (m : Mem) :
  observe (reset m) =
  {| obs_train := new_TrackingValues; obs_val := new_TrackingValues;
     obs_max_epochs := 0; obs_current_epoch := 0; obs_steps_per_epoch := None;
     obs_logs := [] |}.
Proof.
  unfold observe.
  rewrite reset_deref_train, reset_deref_val.
  reflexivity.
Qed.

(** C5. After [reset] the counters read 0, 0 and [None], the log is empty,
    and the two bundles are newly allocated, empty objects: they did not
    exist before the reset, so they differ from every object of the old heap
    (the bundles the tracker held among them) and from each other, and the
    old objects are left as they were. A second [reset] gives the same
    observable state as the first. *)
Theorem reset_defaults_fresh_idempotent (m : Mem) :
  let m' := reset m in
  current_epoch (tracker m') = 0
  /\ max_epochs (tracker m') = 0
  /\ steps_per_epoch (tracker m') = None
  /\ logs (tracker m') = []
  /\ deref (heap m') (train (tracker m')) = new_TrackingValues
  /\ deref (heap m') (val (tracker m')) = new_TrackingValues
  /\ (allocated (heap m') (train (tracker m')) /\ allocated (heap m') (val (tracker m')))
  /\ (~ allocated (heap m) (train (tracker m')) /\ ~ allocated (heap m) (val (tracker m')))
  /\ train (tracker m') <> val (tracker m')
  /\ (forall l, allocated (heap m) l ->
        l <> train (tracker m') /\ l <> val (tracker m')
        /\ deref (heap m') l = deref (heap m) l)
  /\ observe (reset m') = observe m'.
Proof.
  cbv zeta.
  repeat match goal with |- _ /\ _ => split end; try reflexivity.
  - apply reset_deref_train.
  - apply reset_deref_val.
  - unfold allocated. rewrite reset_heap, reset_train, length_app. simpl. lia.
  - unfold allocated. rewrite reset_heap, reset_val, length_app. simpl. lia.
  - unfold allocated. rewrite reset_train. lia.
  - unfold allocated. rewrite reset_val. lia.
  - rewrite reset_train, reset_val. lia.
  - intros l Hl. unfold allocated in Hl.
    rewrite reset_train, reset_val, reset_heap.
    repeat split; try lia.
    unfold deref. now rewrite app_nth1.
  - now rewrite !observe_reset.
Qed.

Lemma string_eqb_neq {a b : string} : a <> b -> String.eqb a b = false.
Proof. intros H. now apply String.eqb_neq. Qed.

(** C6. Indexed access knows four keys: ["train"] and ["val"] give the
    bundle of the mode (the object [mode] returns), ["metrics"] the two
    metric mappings, ["loss"] the two loss averages; any other key raises
    [KeyError]. *)
Theorem getitem_four_views (m : Mem) (key : string) :
  getitem m "train" = Ok (ItemBundle (train (tracker m)))
  /\ getitem m "val" = Ok (ItemBundle (val (tracker m)))
  /\ mode m "train" = Ok (train (tracker m))
  /\ mode m "val" = Ok (val (tracker m))
  /\ getitem m "metrics"
     = Ok (ItemMetrics (metrics (deref (heap m) (train (tracker m))))
                       (metrics (deref (heap m) (val (tracker m)))))
  /\ getitem m "loss"
     = Ok (ItemLoss (avg (loss (deref (heap m) (train (tracker m)))))
                    (avg (loss (deref (heap m) (val (tracker m))))))
  /\ (key <> "train" -> key <> "val" -> key <> "metrics" -> key <> "loss" ->
      getitem m key = Raise (KeyError ("key " +++ key +++ " is not implemented!"))).
Proof.
  repeat match goal with |- _ /\ _ => split end; try reflexivity.
  intros H1 H2 H3 H4. unfold getitem.
  now rewrite (string_eqb_neq H1), (string_eqb_neq H2), (string_eqb_neq H3),
    (string_eqb_neq H4).
Qed.

(** C10. [track_loss] and [track_metrics] called with a mode other than
    ["train"] and ["val"] raise [KeyError] and leave the tracker and its
    heap as they were. *)
Theorem track_unknown_mode_unchanged (m : Mem) (loss_v : Q) (metric : list (string * Q))
  (mode_name : string) :
  mode_name <> "train" -> mode_name <> "val" ->
  track_loss m loss_v mode_name
  = (Raise (KeyError ("mode " +++ mode_name +++ " is not implemented!")), m)
  /\ track_metrics m metric mode_name
     = (Raise (KeyError ("mode " +++ mode_name +++ " is not implemented!")), m).
Proof.
  intros H1 H2. unfold track_loss, track_metrics, mode.
  now rewrite (string_eqb_neq H1), (string_eqb_neq H2).
Qed.

Lemma fold_columns {A : Type} (f : A -> string) (g : A -> PyVal) (l : list A)
  (h : list string) (r : list PyVal) :
  fold_left (fun hr kv => (fst hr ++ [f kv], snd hr ++ [g kv])) l (h, r)
  = (h ++ map f l, r ++ map g l).
Proof.
  revert h r. induction l as [|x l IH]; intros h r; simpl.
  - now rewrite !app_nil_r.
  - rewrite IH. now rewrite <- !app_assoc.
Qed.

Lemma list_ascii_of_string_app (a b : string) :
  list_ascii_of_string (a +++ b) = list_ascii_of_string a ++ list_ascii_of_string b.
Proof.
  induction a as [|c a IH]; simpl; [reflexivity | now rewrite IH].
Qed.

Lemma pad3_ok_below_1000 : forallb (fun n => pad3_ok (Z.of_nat n)) (seq 0 1000) = true.
Proof. vm_compute. reflexivity. Qed.

Lemma pad3_three_digits (k : Z) : 0 <= k < 1000 -> pad3_ok k = true.
Proof.
  intros Hk.
  pose proof pad3_ok_below_1000 as H.
  rewrite forallb_forall in H.
  specialize (H (Z.to_nat k)).
  rewrite Z2Nat.id in H by lia.
  apply H, in_seq. lia.
Qed.

Lemma three_decimals_format_3f (negative : bool) (magnitude : Q) :
  three_decimals (format_3f (FFinite negative magnitude)) = true.
Proof.
  unfold format_3f, digits_3f, three_decimals.
  set (n := round_half_even (Qabs magnitude * 1000)).
  pose proof (pad3_three_digits (n mod 1000) (Z.mod_pos_bound n 1000 eq_refl)) as Hp.
  unfold pad3_ok in Hp.
  rewrite !list_ascii_of_string_app.
  destruct (list_ascii_of_string (pad3 (n mod 1000))) as [|a [|b [|c [|d t]]]];
    try discriminate.
  rewrite !rev_app_distr. simpl.
  apply andb_true_iff in Hp as [Hab Hc]. apply andb_true_iff in Hab as [Ha Hb].
  now rewrite Ha, Hb, Hc.
Qed.

(** C8 (as amended). [create_table] builds one row under the headings, in
    this order: the epoch index, the train loss, the val loss only when a
    val loss was computed, every train metric and then every val metric in
    the order of its mapping. A float cell is written with the format
    [" .3f"]: a space, or a minus sign when the sign bit is set, then three
    decimals for a finite float and [inf] for an infinity; NaN is written
    [" nan"]. Any other cell, the integer epoch index among them, is
    written by [str] as it is. *)
Theorem create_table_columns (m : Mem) :
  let val_computed := computed (loss (deref (heap m) (val (tracker m)))) in
  headings (create_table m)
  = ["i"; "train/loss"]
    ++ (if val_computed then ["val/loss"] else [])
    ++ map (fun kv => "train/" +++ fst kv) (train_metrics m)
    ++ map (fun kv => "val/" +++ fst kv) (val_metrics m)
  /\ rows (create_table m)
     = [map cell
          ([PyOther (PyInt (current_epoch (tracker m))); of_avg (train_loss m)]
           ++ (if val_computed then [of_avg (val_loss m)] else [])
           ++ map (fun kv => of_avg (avg (snd kv))) (train_metrics m)
           ++ map (fun kv => of_avg (avg (snd kv))) (val_metrics m))]
  /\ (forall x, cell (PyFloat x) = format_3f x)
  /\ (forall negative magnitude,
        format_3f (FFinite negative magnitude)
        = (if negative then "-" else " ") +++ digits_3f magnitude
        /\ three_decimals (cell (PyFloat (FFinite negative magnitude))) = true)
  /\ (cell (PyFloat FNan) = " nan"
      /\ cell (PyFloat (FInf false)) = " inf"
      /\ cell (PyFloat (FInf true)) = "-inf")
  /\ (forall z, cell (PyOther (PyInt z)) = str_int z)
  /\ cell (PyOther PyNone) = "None"
  /\ (forall s, cell (PyOther (PyStr s)) = s).
Proof.
  cbv zeta. split; [|split; [|split; [|split]]].
  - unfold create_table.
    destruct (computed (loss (deref (heap m) (val (tracker m)))));
      rewrite !fold_columns; simpl; now rewrite <- ?app_assoc.
  - unfold create_table.
    destruct (computed (loss (deref (heap m) (val (tracker m)))));
      rewrite !fold_columns; simpl; now rewrite <- ?app_assoc.
  - reflexivity.
  - intros negative magnitude. split; [reflexivity | apply three_decimals_format_3f].
  - repeat split.
Qed.

End TrackerProperties.

(** * Properties of the engine *)

Section EngineProperties.

Context {Batch Tensor Metrics CbId U : Type}.
Variable env : @Env Batch Tensor Metrics CbId U.

Implicit Types (self : @Model Batch CbId) (w : @World U).

(** ** Running a sequence *)

Lemma bind_run {A B : Type} (m : M A) (k : A -> M B) w (a : A) :
  res (m w) = Ok a ->
  bind m k w
  = mkOut (res (k a (post (m w)))) (post (k a (post (m w))))
          (evs (m w) ++ evs (k a (post (m w)))).
Proof. unfold bind. now intros ->. Qed.

Lemma bind_raise {A B : Type} (m : M A) (k : A -> M B) w (e : Exn) :
  res (m w) = Raise e ->
  bind m k w = mkOut (Raise e) (post (m w)) (evs (m w)).
Proof. unfold bind. now intros ->. Qed.

Lemma bind_ext {A B : Type} (m : M A) (k k' : A -> M B) w :
  (forall a w', k a w' = k' a w') -> bind m k w = bind m k' w.
Proof.
  intros H. unfold bind. destruct (res (m w)); [now rewrite H | reflexivity].
Qed.

(** ** What a computation can emit, whatever its outcome *)

Definition emits {A : Type} (P : Event -> Prop) (m : M A) : Prop :=
  forall w, Forall P (evs (m w)).

Lemma emits_ret {A : Type} (P : Event -> Prop) (a : A) : emits P (ret a).
Proof. intros w. constructor. Qed.

Lemma emits_raise {A : Type} (P : Event -> Prop) (e : Exn) : emits P (@raise U A e).
Proof. intros w. constructor. Qed.

Lemma emits_bind {A B : Type} (P : Event -> Prop) (m : M A) (k : A -> M B) :
  emits P m -> (forall a, emits P (k a)) -> emits P (bind m k).
Proof.
  intros Hm Hk w. unfold bind.
  destruct (res (m w)) as [a|e]; simpl.
  - apply Forall_app. split; [apply Hm | apply Hk].
  - apply Hm.
Qed.

Lemma emits_try_except {A : Type} (P : Event -> Prop) (m h : M A) (caught : Exn -> bool) :
  emits P m -> emits P h -> emits P (try_except m caught h).
Proof.
  intros Hm Hh w. unfold try_except.
  destruct (res (m w)) as [a|e]; [apply Hm|].
  destruct (caught e); simpl; [|apply Hm].
  apply Forall_app. split; [apply Hm | apply Hh].
Qed.

Lemma emits_try_finally {A : Type} (P : Event -> Prop) (m : M A) (fin : M unit) :
  emits P m -> emits P fin -> emits P (try_finally m fin).
Proof.
  intros Hm Hf w. unfold try_finally; simpl.
  apply Forall_app. split; [apply Hm | apply Hf].
Qed.

Lemma emits_modify_mem (P : Event -> Prop) (f : Mem -> Mem) : emits P (@modify_mem U f).
Proof. intros w. constructor. Qed.

Lemma emits_call {A : Type} (P : Event -> Prop) (f : U -> Res A * U) : emits P (call f).
Proof. intros w. constructor. Qed.

Lemma emits_broadcast (P : Event -> Prop) (cbs : list CbId) (h : Hook)
  (p : option (Batch * Outputs)) :
  emits P (broadcast env cbs h p).
Proof.
  induction cbs as [|c cbs IH]; simpl.
  - apply emits_ret.
  - apply emits_bind; [intros w; constructor | intros _; exact IH].
Qed.

Lemma emits_fire (ok : Hook -> bool) self (h : Hook) (p : option (Batch * Outputs)) :
  ok h = true -> emits (only ok) (fire env self h p).
Proof.
  intros Hh w. unfold fire; simpl.
  constructor; [exact Hh | apply emits_broadcast].
Qed.

Ltac emits_steps :=
  repeat first
    [ apply emits_bind; [|intros ?]
    | apply emits_fire; auto
    | apply emits_ret | apply emits_raise | apply emits_modify_mem | apply emits_call ].

Lemma emits_step (ok : Hook -> bool) self (b : Batch) :
  ok on_forward_start = true -> ok on_forward_end = true ->
  emits (only ok) (step env self b).
Proof.
  intros H1 H2. unfold step, forward_once, calculate_metrics. emits_steps.
Qed.

Lemma emits_train_loop (ok : Hook -> bool) self (spe : option Z) (items : list (Z * Batch)) :
  (forall h, is_train_phase h = true -> ok h = true) ->
  emits (only ok) (train_loop env self spe items).
Proof.
  intros Hok. induction items as [|[i b] rest IH]; simpl.
  - apply emits_ret.
  - apply emits_bind.
    + unfold train_iteration, set_train_steps, train_step. emits_steps.
    + intros _. destruct (TEST self); [apply emits_ret|].
      destruct (step_limit_hit spe i); [apply emits_ret | exact IH].
Qed.

Lemma emits_train_epoch (ok : Hook -> bool) self :
  (forall h, is_train_phase h = true -> ok h = true) ->
  emits (only ok) (_train_epoch_with_event env self).
Proof.
  intros Hok. unfold _train_epoch_with_event.
  destruct (autodataset self) as [ds|]; [|apply emits_raise].
  emits_steps. intros w. apply emits_train_loop; auto.
Qed.

Lemma emits_val_loop (ok : Hook -> bool) self (items : list (Z * Batch)) :
  (forall h, is_val_phase h = true -> ok h = true) ->
  emits (only ok) (val_loop env self items).
Proof.
  intros Hok. induction items as [|[i b] rest IH]; simpl.
  - apply emits_ret.
  - apply emits_bind.
    + unfold val_iteration, set_val_steps, val_step. emits_steps.
    + intros _. destruct (TEST self); [apply emits_ret | exact IH].
Qed.

Lemma emits_val_epoch (ok : Hook -> bool) self :
  (forall h, is_val_phase h = true -> ok h = true) ->
  emits (only ok) (_val_epoch_with_event env self).
Proof.
  intros Hok. unfold _val_epoch_with_event.
  destruct (autodataset self) as [ds|]; [|apply emits_raise].
  destruct (falsy_loader (val_dataloader ds)); [apply emits_ret|].
  emits_steps. apply emits_val_loop; auto.
Qed.

Lemma run_hook_train (h : Hook) : is_train_phase h = true -> is_run_hook h = true.
Proof. now destruct h. Qed.

Lemma run_hook_val (h : Hook) : is_val_phase h = true -> is_run_hook h = true.
Proof. now destruct h. Qed.

Lemma emits_epoch_loop self (epochs : list Z) :
  emits (only is_run_hook) (epoch_loop env self epochs).
Proof.
  induction epochs as [|e rest IH]; simpl.
  - apply emits_ret.
  - apply emits_bind.
    + unfold epoch_iteration. emits_steps.
      * apply emits_train_epoch, run_hook_train.
      * apply emits_val_epoch, run_hook_val.
    + intros _. destruct (TEST self); [apply emits_ret | exact IH].
Qed.

Lemma scope_hooks_run (name : string) (h_start h_end : Hook) :
  scope_hooks name = Some (h_start, h_end) ->
  is_run_hook h_start = true /\ is_run_hook h_end = true.
Proof.
  unfold scope_hooks.
  repeat match goal with
         | |- context [if ?c then _ else _] => destruct c
         end;
    intros H; inversion H; split; reflexivity.
Qed.

Lemma emits_with_event self (name : string) (body : M unit) (cancel : Exn -> bool) :
  emits (only is_run_hook) body ->
  emits (only is_run_hook) (with_event env self name body cancel).
Proof.
  intros Hb. unfold with_event.
  destruct (scope_hooks name) as [[h_start h_end]|] eqn:E; [|apply emits_raise].
  apply scope_hooks_run in E as [Hs He].
  apply emits_bind; [|intros _; now apply emits_fire].
  apply emits_try_except; [|apply emits_ret].
  apply emits_bind; [now apply emits_fire | intros _; exact Hb].
Qed.

Lemma emits_fit_with_event self :
  emits (only is_run_hook) (_fit_with_event env self).
Proof.
  unfold _fit_with_event.
  apply emits_bind; [now apply emits_fire | intros _].
  apply emits_bind; [|intros _; now apply emits_fire].
  apply emits_with_event. intros w. apply emits_epoch_loop.
Qed.

(** ** Events of the primitives *)

Lemma Forall_False_nil {A : Type} (l : list A) : Forall (fun _ => False) l -> l = [].
Proof. destruct l; [reflexivity | intros H; inversion H; contradiction]. Qed.

Lemma evs_broadcast (cbs : list CbId) (h : Hook) (p : option (Batch * Outputs)) w :
  evs (broadcast env cbs h p w) = [].
Proof. apply Forall_False_nil, emits_broadcast. Qed.

Lemma evs_fire self (h : Hook) (p : option (Batch * Outputs)) w :
  evs (fire env self h p w) = [Fired h (current_epoch (tracker (mem w)))].
Proof. unfold fire; simpl. now rewrite evs_broadcast. Qed.

Lemma out_eta {A : Type} (o : @Out U A) : mkOut (res o) (post o) (evs o) = o.
Proof. now destruct o. Qed.

Lemma count_fired_app (h : Hook) (a b : list Event) :
  count_fired h (a ++ b) = (count_fired h a + count_fired h b)%nat.
Proof. unfold count_fired. now rewrite filter_app, length_app. Qed.

Lemma Hook_eqb_eq (a b : Hook) : Hook_eqb a b = true -> a = b.
Proof. destruct a, b; simpl; intros H; try reflexivity; discriminate. Qed.

Lemma count_fired_none (ok : Hook -> bool) (h : Hook) (l : list Event) :
  Forall (only ok) l -> ok h = false -> count_fired h l = 0%nat.
Proof.
  intros Hl Hh. unfold count_fired.
  induction Hl as [|ev l Hev _ IH]; simpl; [reflexivity|].
  destruct ev as [h' e|msg]; simpl; [|exact IH].
  destruct (Hook_eqb h h') eqn:E; [|exact IH].
  apply Hook_eqb_eq in E. subst h'. simpl in Hev. congruence.
Qed.

(** ** Scopes *)

Lemma try_except_ok {A : Type} (m h : M A) (caught : Exn -> bool) w (a : A) :
  res (m w) = Ok a -> try_except m caught h w = m w.
Proof. unfold try_except. now intros ->. Qed.

Lemma try_except_pass {A : Type} (m h : M A) (caught : Exn -> bool) w (e : Exn) :
  res (m w) = Raise e -> caught e = false -> try_except m caught h w = m w.
Proof. unfold try_except. now intros -> ->. Qed.

Lemma try_except_caught {A : Type} (m h : M A) (caught : Exn -> bool) w (e : Exn) :
  res (m w) = Raise e -> caught e = true ->
  try_except m caught h w
  = mkOut (res (h (post (m w)))) (post (h (post (m w)))) (evs (m w) ++ evs (h (post (m w)))).
Proof. unfold try_except. now intros -> ->. Qed.

Lemma with_event_swallows self (name : string) (h_start h_end : Hook) (body : M unit)
  (cancel : Exn -> bool) w :
  scope_hooks name = Some (h_start, h_end) ->
  let o_in := bind (fire env self h_start None) (fun _ => body) w in
  (res o_in = Ok tt \/ exists e, res o_in = Raise e /\ cancel e = true) ->
  let o_end := fire env self h_end None (post o_in) in
  with_event env self name body cancel w
  = mkOut (res o_end) (post o_end) (evs o_in ++ evs o_end).
Proof.
  intros E o_in H o_end. subst o_in o_end.
  set (inner := bind (fire env self h_start None) (fun _ => body)) in *.
  assert (Ht : try_except inner cancel (ret tt) w
               = mkOut (Ok tt) (post (inner w)) (evs (inner w))).
  { destruct H as [H | [e [H Hc]]].
    - rewrite (try_except_ok _ _ _ _ _ H). rewrite <- H. symmetry. apply out_eta.
    - rewrite (try_except_caught _ _ _ _ _ H Hc). simpl. now rewrite app_nil_r. }
  unfold with_event. rewrite E. fold inner.
  rewrite (bind_run _ _ w tt) by now rewrite Ht.
  now rewrite Ht.
Qed.

Lemma with_event_propagates self (name : string) (h_start h_end : Hook) (body : M unit)
  (cancel : Exn -> bool) w (e : Exn) :
  scope_hooks name = Some (h_start, h_end) ->
  let o_in := bind (fire env self h_start None) (fun _ => body) w in
  res o_in = Raise e -> cancel e = false ->
  with_event env self name body cancel w = mkOut (Raise e) (post o_in) (evs o_in).
Proof.
  intros E o_in H Hc. subst o_in.
  set (inner := bind (fire env self h_start None) (fun _ => body)) in *.
  unfold with_event. rewrite E. fold inner.
  rewrite (bind_raise _ _ w e); now rewrite (try_except_pass _ _ _ _ _ H Hc).
Qed.

(** ** The epoch loop *)



Lemma epoch_unfold self w :
  epoch env self w
  = epoch_loop env self
      (range (current_epoch (tracker (mem w))) (max_epochs (tracker (mem w)))) w.
Proof. reflexivity. Qed.


(** ** [fit] *)

Lemma evs_fit_setup self (ds : AutoDataset) (max_e : Z) (spe : option Z)
  (cbs : list CbId) (resume show : bool) w :
  evs (fit_setup env self ds max_e spe cbs resume show w) = [].
Proof.
  apply Forall_False_nil. revert w.
  change (emits (fun _ : Event => False)
            (fit_setup env self ds max_e spe cbs resume show)).
  unfold fit_setup, assert_compiled.
  apply emits_bind; [destruct (_compiled self); [apply emits_ret | apply emits_raise]|].
  intros _. apply emits_bind; [apply emits_call|]. intros ds'.
  apply emits_bind; [destruct (negb resume); [apply emits_modify_mem | apply emits_ret]|].
  intros _. apply emits_bind; [apply emits_modify_mem|].
  intros _. apply emits_bind; [apply emits_modify_mem|].
  intros _. apply emits_ret.
Qed.

Lemma fit_run_outcome self w :
  let o_scope := with_event env self "fit" (_fit_with_event env self) is_FitCancel w in
  let o_clean := clean env self (post o_scope) in
  let interrupted :=
    match res o_scope with Raise e => is_KeyboardInterrupt e | Ok _ => false end in
  fit_run env self w
  = mkOut (match res o_clean with
           | Ok _ => if interrupted then Ok tt else res o_scope
           | Raise e => Raise e
           end)
          (post o_clean)
          (evs o_scope
           ++ (if interrupted then [Logged "Keyboard interruption detected"] else [])
           ++ evs o_clean).
Proof.
  cbv zeta. unfold fit_run, try_finally, try_except, log_info.
  destruct (res (with_event env self "fit" (_fit_with_event env self) is_FitCancel w))
    as [[]|e] eqn:E.
  - now rewrite E.
  - destruct (is_KeyboardInterrupt e) eqn:Ek; cbn [res post evs].
    + now rewrite <- app_assoc.
    + now rewrite E.
Qed.

Lemma count_clean_fit_scope self w :
  count_fired clean_hook
    (evs (with_event env self "fit" (_fit_with_event env self) is_FitCancel w)) = 0%nat.
Proof.
  apply (count_fired_none is_run_hook); [|reflexivity].
  apply emits_with_event, emits_fit_with_event.
Qed.

(** C4 (as amended). Once the statements before the [try] of [fit] have
    returned (the model is compiled, the data prepared, the callbacks
    registered), every way out of [fit] fires the teardown exactly once, as
    the last thing [fit] does: after a normal run, after a cancellation of
    the fit scope (which the scope swallows), after a [KeyboardInterrupt]
    and after any other exception. When the teardown returns, a
    [KeyboardInterrupt] that left the fit scope is logged and [fit] returns
    the tracker, and any other exception that left the scope is raised to
    the caller; what the teardown raises is raised to the caller. An
    exception of the statements before the [try] leaves [fit] with no
    teardown. *)
Theorem fit_teardown_once self (ds : AutoDataset) (max_e : Z) (spe : option Z)
  (cbs : list CbId) (resume show : bool) w :
  let o_setup := fit_setup env self ds max_e spe cbs resume show w in
  let o := fit env self ds max_e spe cbs resume show w in
  (forall self', res o_setup = Ok self' ->
     let o_in := bind (fire env self' on_fit_start None)
                      (fun _ => _fit_with_event env self') (post o_setup) in
     let o_scope := with_event env self' "fit" (_fit_with_event env self') is_FitCancel
                      (post o_setup) in
     let o_clean := clean env self' (post o_scope) in
     count_fired clean_hook (evs o) = 1%nat
     /\ (exists before,
           evs o = before ++ evs o_clean /\ count_fired clean_hook before = 0%nat)
     /\ (res o_in = Raise FitCancel ->
           res o_scope = res (fire env self' on_fit_end None (post o_in)))
     /\ (res o_clean = Ok tt ->
           (res o_scope = Ok tt -> res o = Ok (self', tracker (mem (post o_clean))))
           /\ (res o_scope = Raise KeyboardInterrupt ->
                 res o = Ok (self', tracker (mem (post o_clean)))
                 /\ In (Logged "Keyboard interruption detected") (evs o))
           /\ (forall e, res o_scope = Raise e -> is_KeyboardInterrupt e = false ->
                 res o = Raise e))
     /\ (forall e, res o_clean = Raise e -> res o = Raise e))
  /\ (forall e, res o_setup = Raise e ->
        res o = Raise e /\ count_fired clean_hook (evs o) = 0%nat).
Proof.
  cbv zeta. split.
  - intros self' Hsetup.
    set (w1 := post (fit_setup env self ds max_e spe cbs resume show w)).
    set (o_scope := with_event env self' "fit" (_fit_with_event env self') is_FitCancel w1).
    set (o_clean := clean env self' (post o_scope)).
    assert (Hfit : fit env self ds max_e spe cbs resume show w
                   = let o_run := fit_run env self' w1 in
                     mkOut (match res o_run with
                            | Ok _ => Ok (self', tracker (mem (post o_run)))
                            | Raise e => Raise e
                            end) (post o_run) (evs o_run)).
    { unfold fit. rewrite (bind_run _ _ _ _ Hsetup). fold w1.
      rewrite evs_fit_setup. cbv zeta. unfold bind.
      destruct (res (fit_run env self' w1)); cbn [res post evs];
        now rewrite ?app_nil_r. }
    rewrite Hfit, (fit_run_outcome self' w1). fold o_scope o_clean.
    cbv zeta. cbn [res post evs].
    assert (Hclean : evs o_clean
                     = [Fired clean_hook (current_epoch (tracker (mem (post o_scope))))])
      by apply evs_fire.
    assert (Hbefore : count_fired clean_hook
              (evs o_scope
               ++ (if match res o_scope with
                      | Ok _ => false
                      | Raise e => is_KeyboardInterrupt e
                      end
                   then [Logged "Keyboard interruption detected"] else [])) = 0%nat).
    { rewrite count_fired_app. unfold o_scope at 1. rewrite count_clean_fit_scope.
      now destruct (match res o_scope with Ok _ => false | Raise e => _ end). }
    split; [|split; [|split; [|split]]].
    + rewrite app_assoc, count_fired_app, Hbefore, Hclean. reflexivity.
    + eexists. split; [now rewrite app_assoc | exact Hbefore].
    + intros Hin.
      unfold o_scope.
      rewrite (with_event_swallows self' "fit" on_fit_start on_fit_end
                 (_fit_with_event env self') is_FitCancel w1 eq_refl); [reflexivity|].
      right. now exists FitCancel.
    + intros Hc. rewrite Hc. split; [|split].
      * intros Hs. now rewrite Hs.
      * intros Hs. rewrite Hs. cbn [is_KeyboardInterrupt]. split; [reflexivity|].
        apply in_or_app. right. now left.
      * intros e Hs Hk. now rewrite Hs, Hk.
    + intros e Hc. now rewrite Hc.
  - intros e Hsetup. unfold fit.
    rewrite (bind_raise _ _ _ _ Hsetup). cbn [res evs].
    now rewrite evs_fit_setup.
Qed.

(** C7. [fit] on a compiled model whose data preparation returns: with
    [resume] the tracker enters the fit scope as the previous call left it,
    but for the two bounds just written (same epoch index, same log, same
    bundles, same heap); without [resume] it enters the scope reset, with
    the two bounds written: epoch 0, an empty log, two empty bundles. In
    both cases the run of the fit scope starts from that state. *)
Theorem fit_resume_keeps_or_resets self (ds ds' : AutoDataset) (max_e : Z)
  (spe : option Z) (cbs : list CbId) (show : bool) w :
  _compiled self = true ->
  fst (prepare_data env ds (user w)) = Ok ds' ->
  let o_resume := fit_setup env self ds max_e spe cbs true show w in
  let o_fresh := fit_setup env self ds max_e spe cbs false show w in
  ((exists self', res o_resume = Ok self')
   /\ mem (post o_resume) = set_max_epochs (set_steps_per_epoch (mem w) spe) max_e
   /\ current_epoch (tracker (mem (post o_resume))) = current_epoch (tracker (mem w))
   /\ logs (tracker (mem (post o_resume))) = logs (tracker (mem w))
   /\ train (tracker (mem (post o_resume))) = train (tracker (mem w))
   /\ val (tracker (mem (post o_resume))) = val (tracker (mem w))
   /\ heap (mem (post o_resume)) = heap (mem w))
  /\ ((exists self', res o_fresh = Ok self')
      /\ mem (post o_fresh)
         = set_max_epochs (set_steps_per_epoch (reset (mem w)) spe) max_e
      /\ observe (mem (post o_fresh))
         = {| obs_train := new_TrackingValues; obs_val := new_TrackingValues;
              obs_max_epochs := max_e; obs_current_epoch := 0;
              obs_steps_per_epoch := spe; obs_logs := [] |})
  /\ (forall resume self',
        let o_setup := fit_setup env self ds max_e spe cbs resume show w in
        res o_setup = Ok self' ->
        let o_run := fit_run env self' (post o_setup) in
        post (fit env self ds max_e spe cbs resume show w) = post o_run
        /\ evs (fit env self ds max_e spe cbs resume show w) = evs o_run).
Proof.
  intros Hc Hp. cbv zeta.
  assert (Hcall : res (call (prepare_data env ds) w) = Ok ds') by exact Hp.
  split; [|split].
  - unfold fit_setup, assert_compiled. rewrite Hc.
    rewrite (bind_run (ret tt) _ w tt eq_refl). cbn [ret res post evs].
    rewrite (bind_run _ _ w ds' Hcall). cbn [negb res post evs].
    unfold bind, modify_mem, ret, call. cbn [res post evs mem user].
    repeat split; eauto.
  - unfold fit_setup, assert_compiled. rewrite Hc.
    rewrite (bind_run (ret tt) _ w tt eq_refl). cbn [ret res post evs].
    rewrite (bind_run _ _ w ds' Hcall). cbn [negb res post evs].
    unfold bind, modify_mem, ret, call. cbn [res post evs mem user].
    split; [eauto | split; [reflexivity|]].
    unfold observe, set_max_epochs, set_steps_per_epoch, set_tracker.
    cbn [heap tracker train val max_epochs current_epoch steps_per_epoch logs].
    now rewrite reset_deref_train, reset_deref_val.
  - intros resume self' Hs. unfold fit.
    rewrite (bind_run _ _ _ _ Hs). cbn [res post evs].
    rewrite evs_fit_setup. unfold bind.
    destruct (res (fit_run env self' _)); cbn [post evs]; now rewrite ?app_nil_r.
Qed.

(** ** Runs in which nothing raises *)

Definition runs {A : Type} (m : M A) (hs : list Hook) : Prop :=
  forall w, (exists a, res (m w) = Ok a) /\ hooks_of (evs (m w)) = hs.

Lemma hooks_of_app (a b : list Event) : hooks_of (a ++ b) = hooks_of a ++ hooks_of b.
Proof.
  induction a as [|[h e|msg] a IH]; simpl; [reflexivity | now rewrite IH | exact IH].
Qed.

Lemma runs_ret {A : Type} (a : A) : runs (ret a) [].
Proof. intros w. split; [now exists a | reflexivity]. Qed.

Lemma runs_bind {A B : Type} (m : M A) (k : A -> M B) (h1 h2 hs : list Hook) :
  runs m h1 -> (forall a, runs (k a) h2) -> h1 ++ h2 = hs -> runs (bind m k) hs.
Proof.
  intros Hm Hk <- w.
  destruct (Hm w) as [[a Ha] Hh].
  rewrite (bind_run _ _ _ _ Ha). cbn [res evs].
  destruct (Hk a (post (m w))) as [[b Hb] Hh'].
  split; [now exists b|].
  now rewrite hooks_of_app, Hh, Hh'.
Qed.

Lemma runs_modify_mem (f : Mem -> Mem) : runs (@modify_mem U f) [].
Proof. intros w. split; [now exists tt | reflexivity]. Qed.

Lemma runs_call {A : Type} (f : U -> Res A * U) :
  (forall u, exists a, fst (f u) = Ok a) -> runs (call f) [].
Proof. intros H w. split; [apply H | reflexivity]. Qed.

Lemma broadcast_quiet (cbs : list CbId) (h : Hook) (p : option (Batch * Outputs)) w :
  quiet env -> res (broadcast env cbs h p w) = Ok tt.
Proof.
  intros [Hh _]. revert w. induction cbs as [|c cbs IH]; intros w; [reflexivity|].
  cbn [broadcast].
  rewrite (bind_run _ _ w tt); [apply IH | apply Hh].
Qed.

Lemma fire_quiet self (h : Hook) (p : option (Batch * Outputs)) w :
  quiet env -> res (fire env self h p w) = Ok tt.
Proof. intros Hq. unfold fire; cbn [res]. now apply broadcast_quiet. Qed.

Lemma runs_fire self (h : Hook) (p : option (Batch * Outputs)) :
  quiet env -> runs (fire env self h p) [h].
Proof.
  intros Hq w. split; [exists tt; now apply fire_quiet|].
  now rewrite evs_fire.
Qed.

Lemma runs_step self (b : Batch) :
  quiet env -> runs (step env self b) [on_forward_start; on_forward_end].
Proof.
  intros Hq. pose proof Hq as (_ & Hf & Hl & Hu & Hc).
  unfold step, forward_once, calculate_metrics.
  eapply runs_bind;
    [ eapply runs_bind;
      [ now apply runs_fire
      | intros _; eapply runs_bind;
        [ apply runs_call; intros u; apply Hf
        | intros x; eapply runs_bind;
          [now apply runs_fire | intros _; apply runs_ret | reflexivity]
        | reflexivity ]
      | reflexivity ]
    | intros logits; eapply runs_bind;
      [ apply runs_call; intros u; apply Hl
      | intros l; eapply runs_bind;
        [ eapply runs_bind;
          [ apply runs_call; intros u; exists tt; apply Hu
          | intros _; apply runs_call; intros u; apply Hc
          | reflexivity ]
        | intros mv; apply runs_ret
        | reflexivity ]
      | reflexivity ]
    | reflexivity ].
Qed.

Lemma runs_train_iteration self (i : Z) (b : Batch) :
  quiet env -> runs (train_iteration env self i b) train_step_hooks.
Proof.
  intros Hq. unfold train_iteration, set_train_steps, train_step.
  eapply runs_bind;
    [ apply runs_modify_mem
    | intros _; eapply runs_bind;
      [ now apply runs_fire
      | intros _; eapply runs_bind;
        [ now apply runs_step
        | intros o; now apply runs_fire
        | reflexivity ]
      | reflexivity ]
    | reflexivity ].
Qed.

Lemma train_iteration_quiet self (i : Z) (b : Batch) w :
  quiet env ->
  res (train_iteration env self i b w) = Ok tt
  /\ hooks_of (evs (train_iteration env self i b w)) = train_step_hooks.
Proof.
  intros Hq. destruct (runs_train_iteration self i b Hq w) as [[[] Ha] Hh].
  now split.
Qed.

Lemma train_loop_quiet self (spe : option Z) (items : list (Z * Batch)) w :
  quiet env -> res (train_loop env self spe items w) = Ok tt.
Proof.
  intros Hq. revert w. induction items as [|[i b] rest IH]; intros w; [reflexivity|].
  cbn [train_loop].
  destruct (train_iteration_quiet self i b w Hq) as [Hr _].
  rewrite (bind_run _ _ _ _ Hr). cbn [res].
  destruct (TEST self); [reflexivity|].
  destruct (step_limit_hit spe i); [reflexivity | apply IH].
Qed.

Lemma all_batches_quiet self (items : list (Z * Batch)) w :
  quiet env ->
  res (all_batches env self items w) = Ok tt
  /\ hooks_of (evs (all_batches env self items w))
     = List.concat (map (fun _ => train_step_hooks) items).
Proof.
  intros Hq. revert w. induction items as [|[i b] rest IH]; intros w.
  - split; reflexivity.
  - cbn [all_batches map List.concat].
    destruct (train_iteration_quiet self i b w Hq) as [Hr Hh].
    rewrite (bind_run _ _ _ _ Hr). cbn [res evs].
    destruct (IH (post (train_iteration env self i b w))) as [Hr' Hh'].
    split; [exact Hr'|].
    now rewrite hooks_of_app, Hh, Hh'.
Qed.

Lemma train_loop_no_limit self (spe : option Z) (items : list (Z * Batch)) w :
  TEST self = false -> (spe = None \/ spe = Some 0) ->
  train_loop env self spe items w = all_batches env self items w.
Proof.
  intros HT Hs. revert w. induction items as [|[i b] rest IH]; intros w; [reflexivity|].
  cbn [train_loop all_batches]. rewrite HT.
  replace (step_limit_hit spe i) with false by (destruct Hs; now subst).
  apply bind_ext. intros _ w'. apply IH.
Qed.

Lemma count_fired_hooks (h : Hook) (l : list Event) :
  count_fired h l = List.length (filter (Hook_eqb h) (hooks_of l)).
Proof.
  unfold count_fired. induction l as [|[h' e|msg] l IH]; simpl; [reflexivity| |exact IH].
  destruct (Hook_eqb h h'); simpl; now rewrite IH.
Qed.

Lemma count_in_steps {A : Type} (h : Hook) (l : list A) :
  In h train_step_hooks -> h <> on_forward_start -> h <> on_forward_end ->
  List.length (filter (Hook_eqb h) (List.concat (map (fun _ => train_step_hooks) l)))
  = List.length l.
Proof.
  intros Hin H1 H2. induction l as [|x l IH]; [reflexivity|].
  cbn [map List.concat]. rewrite filter_app, length_app, IH.
  destruct Hin as [<-|[<-|[<-|[<-|[]]]]]; try reflexivity; contradiction.
Qed.

(** C9. With [TEST] off and [steps_per_epoch = 0] on the tracker, the loop
    of [train_one_epoch] never takes its early exit: it is the loop over
    every batch, the same as with [steps_per_epoch = None]; when nothing
    raises it makes one train step per batch of the loader. [fit] writes
    the bound it is given to the tracker unchanged. *)
Theorem steps_per_epoch_zero_is_no_limit self (dl : list Batch) w :
  TEST self = false ->
  steps_per_epoch (tracker (mem w)) = Some 0 ->
  let o := train_one_epoch env self dl w in
  o = all_batches env self (enumerate dl) w
  /\ o = train_loop env self None (enumerate dl) w
  /\ (quiet env ->
      res o = Ok tt
      /\ hooks_of (evs o) = List.concat (map (fun _ => train_step_hooks) dl)
      /\ count_fired on_train_step_start (evs o) = List.length dl
      /\ count_fired on_train_step_end (evs o) = List.length dl)
  /\ (forall self0 ds max_e cbs resume show w0 self',
        let o_setup := fit_setup env self0 ds max_e (Some 0) cbs resume show w0 in
        res o_setup = Ok self' ->
        steps_per_epoch (tracker (mem (post o_setup))) = Some 0).
Proof.
  intros HT Hs. cbv zeta. unfold train_one_epoch. rewrite Hs.
  assert (Hall : train_loop env self (Some 0) (enumerate dl) w
                 = all_batches env self (enumerate dl) w)
    by (apply train_loop_no_limit; auto).
  split; [exact Hall | split; [|split]].
  - rewrite Hall. symmetry. apply train_loop_no_limit; auto.
  - intros Hq. rewrite Hall.
    destruct (all_batches_quiet self (enumerate dl) w Hq) as [Hr Hh].
    assert (Hmap : forall (l : list Batch) (i : Z),
               List.concat (map (fun _ : Z * Batch => train_step_hooks) (enumerate_from i l))
               = List.concat (map (fun _ : Batch => train_step_hooks) l)).
    { induction l as [|x l IH]; intros i; [reflexivity|].
      cbn [enumerate_from map List.concat]. now rewrite IH. }
    unfold enumerate in *. rewrite Hmap in Hh.
    split; [exact Hr | split; [exact Hh|]].
    rewrite !count_fired_hooks, Hh.
    split; apply count_in_steps; simpl; auto; discriminate.
  - intros self0 ds max_e cbs resume show w0 self'.
    unfold fit_setup, assert_compiled, bind, call, modify_mem, ret, raise.
    destruct (_compiled self0); cbn [res post evs]; [|discriminate].
    destruct (fst (prepare_data env ds (user w0))); cbn [res post evs]; [|discriminate].
    destruct (negb resume); cbn [res post evs mem]; reflexivity.
Qed.

(** ** Epochs without validation *)

Lemma filter_hooks_none (ok f : Hook -> bool) (l : list Event) :
  Forall (only ok) l -> (forall h, ok h = true -> f h = false) ->
  filter f (hooks_of l) = [].
Proof.
  intros Hl Hf. induction Hl as [|[h e|msg] l Hev _ IH]; simpl; [reflexivity| |exact IH].
  now rewrite (Hf h Hev).
Qed.

Lemma filter_fired_none (ok : Hook -> bool) (h : Hook) (l : list Event) :
  Forall (only ok) l -> ok h = false -> filter (fired h) l = [].
Proof.
  intros Hl Hh. induction Hl as [|[h' e|msg] l Hev _ IH]; simpl; [reflexivity| |exact IH].
  destruct (Hook_eqb h h') eqn:E; [|exact IH].
  apply Hook_eqb_eq in E. subst h'. simpl in Hev. congruence.
Qed.

Lemma filter_within {A : Type} (f g : A -> bool) (l : list A) :
  (forall x, f x = true -> g x = true) -> filter f (filter g l) = filter f l.
Proof.
  intros H. induction l as [|x l IH]; [reflexivity|]. simpl.
  destruct (g x) eqn:Eg; simpl.
  - now rewrite IH.
  - destruct (f x) eqn:Ef; [|exact IH].
    apply H in Ef. congruence.
Qed.

Lemma train_epoch_quiet self (ds : AutoDataset) w :
  quiet env -> autodataset self = Some ds ->
  res (_train_epoch_with_event env self w) = Ok tt.
Proof.
  intros Hq Hds. unfold _train_epoch_with_event. rewrite Hds.
  rewrite (bind_run _ _ w tt (fire_quiet _ _ _ _ Hq)). cbn [res].
  rewrite (bind_run (train_one_epoch env self (train_dataloader ds)) _ _ tt).
  - cbn [res]. now apply fire_quiet.
  - unfold train_one_epoch. now apply train_loop_quiet.
Qed.

Lemma val_epoch_skipped self (ds : AutoDataset) w :
  autodataset self = Some ds -> val_dataloader ds = None ->
  _val_epoch_with_event env self w = ret tt w.
Proof.
  intros Hds Hv. unfold _val_epoch_with_event. now rewrite Hds, Hv.
Qed.

(** One iteration of the epoch loop, when nothing raises and there is no
    validation loader: [on_epoch_start] with the epoch index just written,
    then events of the train part only, then [on_epoch_end]. *)
Lemma epoch_iteration_quiet self (ds : AutoDataset) (e : Z) w :
  quiet env -> autodataset self = Some ds -> val_dataloader ds = None ->
  let o := epoch_iteration env self e w in
  res o = Ok tt
  /\ exists mid e_end,
       evs o = Fired on_epoch_start e :: mid ++ [Fired on_epoch_end e_end]
       /\ Forall (only is_train_phase) mid.
Proof.
  intros Hq Hds Hv. cbv zeta. unfold epoch_iteration.
  rewrite (bind_run (modify_mem _) _ w tt eq_refl). cbn [res post evs modify_mem].
  set (w1 := {| mem := set_current_epoch (mem w) e; user := user w |}).
  rewrite (bind_run _ _ w1 tt (fire_quiet _ _ _ _ Hq)). cbn [res post evs].
  rewrite evs_fire.
  set (w2 := post (fire env self on_epoch_start None w1)).
  rewrite (bind_run _ _ w2 tt (train_epoch_quiet self ds w2 Hq Hds)). cbn [res post evs].
  set (w3 := post (_train_epoch_with_event env self w2)).
  rewrite (bind_run (_val_epoch_with_event env self) _ w3 tt)
    by now rewrite (val_epoch_skipped self ds w3 Hds Hv).
  rewrite (val_epoch_skipped self ds w3 Hds Hv). cbn [ret res post evs].
  rewrite evs_fire.
  split; [now apply fire_quiet|].
  exists (evs (_train_epoch_with_event env self w2)), (current_epoch (tracker (mem w3))).
  split; [reflexivity|].
  now apply emits_train_epoch.
Qed.

Lemma epoch_loop_quiet self (ds : AutoDataset) (epochs : list Z) w :
  quiet env -> TEST self = false ->
  autodataset self = Some ds -> val_dataloader ds = None ->
  let o := epoch_loop env self epochs w in
  res o = Ok tt
  /\ filter is_epoch_hook (hooks_of (evs o))
     = List.concat (map (fun _ => [on_epoch_start; on_epoch_end]) epochs)
  /\ filter (fired on_epoch_start) (evs o) = map (Fired on_epoch_start) epochs
  /\ filter is_val_epoch_hook (hooks_of (evs o)) = [].
Proof.
  intros Hq HT Hds Hv. cbv zeta. revert w.
  induction epochs as [|e rest IH]; intros w; [repeat split|].
  cbn [epoch_loop map List.concat]. rewrite HT.
  destruct (epoch_iteration_quiet self ds e w Hq Hds Hv) as (Hr & mid & e_end & He & Hmid).
  rewrite (bind_run _ _ _ _ Hr). cbn [res evs].
  destruct (IH (post (epoch_iteration env self e w))) as (Hr' & H1 & H2 & H3).
  split; [exact Hr'|].
  rewrite He. cbn [app hooks_of filter is_epoch_hook is_val_epoch_hook fired Hook_eqb].
  rewrite !hooks_of_app, !filter_app, H1, H2, H3.
  rewrite (filter_hooks_none is_train_phase is_epoch_hook mid Hmid)
    by (intros h; now destruct h).
  rewrite (filter_hooks_none is_train_phase is_val_epoch_hook mid Hmid)
    by (intros h; now destruct h).
  rewrite (filter_fired_none is_train_phase on_epoch_start mid Hmid eq_refl).
  repeat split.
Qed.

(** C3. With [TEST] off, no validation loader, and a tracker at epoch 0 with
    [max_epochs = 3], the loop of [epoch] (when no callback and no
    collaborator raises) fires [on_epoch_start] and [on_epoch_end] three
    times, in pairs and in this order, [on_epoch_start] each time with
    [tracker.current_epoch] just set to 0, 1 and 2, and fires no
    [on_val_epoch_start] and no [on_val_epoch_end]. *)
Theorem epoch_three_pairs_no_val self (ds : AutoDataset) w :
  quiet env -> TEST self = false ->
  autodataset self = Some ds -> val_dataloader ds = None ->
  current_epoch (tracker (mem w)) = 0 -> max_epochs (tracker (mem w)) = 3 ->
  let o := epoch env self w in
  res o = Ok tt
  /\ filter is_epoch_hook (hooks_of (evs o))
     = [on_epoch_start; on_epoch_end; on_epoch_start; on_epoch_end;
        on_epoch_start; on_epoch_end]
  /\ filter (fired on_epoch_start) (evs o)
     = [Fired on_epoch_start 0; Fired on_epoch_start 1; Fired on_epoch_start 2]
  /\ filter is_val_epoch_hook (hooks_of (evs o)) = []
  /\ count_fired on_epoch_start (evs o) = 3%nat
  /\ count_fired on_epoch_end (evs o) = 3%nat
  /\ count_fired on_val_epoch_start (evs o) = 0%nat
  /\ count_fired on_val_epoch_end (evs o) = 0%nat.
Proof.
  intros Hq HT Hds Hv Hc Hm. cbv zeta.
  rewrite epoch_unfold, Hc, Hm.
  change (range 0 3) with [0; 1; 2].
  destruct (epoch_loop_quiet self ds [0; 1; 2] w Hq HT Hds Hv) as (Hr & H1 & H2 & H3).
  repeat split; try assumption.
  - unfold count_fired. now rewrite H2.
  - rewrite count_fired_hooks,
      <- (filter_within (Hook_eqb on_epoch_end) is_epoch_hook), H1; [reflexivity|].
    intros h E. apply Hook_eqb_eq in E. now subst h.
  - rewrite count_fired_hooks,
      <- (filter_within (Hook_eqb on_val_epoch_start) is_val_epoch_hook), H3; [reflexivity|].
    intros h E. apply Hook_eqb_eq in E. now subst h.
  - rewrite count_fired_hooks,
      <- (filter_within (Hook_eqb on_val_epoch_end) is_val_epoch_hook), H3; [reflexivity|].
    intros h E. apply Hook_eqb_eq in E. now subst h.
Qed.

(** ** The bound on the steps of an epoch

    With a positive bound [n] the loop leaves after the step whose index is
    [n]: started at index [i], it steps the first [n - i + 1] batches, so a
    whole epoch makes [n + 1] steps when the loader is long enough. *)
Lemma train_loop_limit self (n : Z) (dl : list Batch) :
  quiet env -> TEST self = false -> 0 < n ->
  forall (i : Z) w, 0 <= i <= n ->
    res (train_loop env self (Some n) (enumerate_from i dl) w) = Ok tt
    /\ hooks_of (evs (train_loop env self (Some n) (enumerate_from i dl) w))
       = List.concat (map (fun _ => train_step_hooks) (firstn (Z.to_nat (n - i + 1)) dl)).
Proof.
  intros Hq HT Hn. induction dl as [|b dl IH]; intros i w Hi.
  - split; [reflexivity|]. now rewrite firstn_nil.
  - cbn [enumerate_from train_loop]. rewrite HT.
    destruct (train_iteration_quiet self i b w Hq) as [Hr Hh].
    rewrite (bind_run _ _ _ _ Hr). cbn [res evs].
    replace (Z.to_nat (n - i + 1)) with (S (Z.to_nat (n - i))) by lia.
    cbn [firstn map List.concat]. rewrite hooks_of_app, Hh.
    unfold step_limit_hit.
    replace (n =? 0) with false by (symmetry; apply Z.eqb_neq; lia).
    cbn [negb andb].
    destruct (i >=? n) eqn:E.
    + assert (i = n) by lia. subst i.
      rewrite Z.sub_diag. cbn [Z.to_nat firstn map List.concat ret res evs hooks_of].
      split; reflexivity.
    + destruct (IH (i + 1) (post (train_iteration env self i b w))) as [Hr' Hh']; [lia|].
      split; [exact Hr'|]. rewrite Hh'.
      now replace (n - (i + 1) + 1) with (n - i) by lia.
Qed.

End EngineProperties.

(** * Runs of the small instance *)

Lemma calm_env_quiet : quiet calm_env.
Proof.
  repeat split; simpl; eauto.
  intros c h p w. destruct h, p as [[b o]|]; reflexivity.
Qed.



(** C2. With [TEST] off, [steps_per_epoch = 2] and a loader of five
    batches, [train_one_epoch] makes three train steps (indices 0, 1 and
    2), not two. *)
Theorem steps_per_epoch_two_of_five :
  let o := train_one_epoch calm_env (calm_model None) (seq 1 5) (limited_world 2) in
  res o = Ok tt
  /\ hooks_of (evs o) = train_step_hooks ++ train_step_hooks ++ train_step_hooks
  /\ count_fired on_train_step_start (evs o) = 3%nat
  /\ count_fired on_train_step_end (evs o) = 3%nat
  /\ steps (deref (heap (mem (post o))) (train (tracker (mem (post o))))) = Some 2.
Proof. vm_compute. repeat split. Qed.

(** C3, an instance: three epochs over two batches, no validation loader. *)
Lemma epoch_three_pairs_witness :
  let o := epoch calm_env (calm_model (Some (toy_dataset 2))) three_epochs_world in
  res o = Ok tt
  /\ filter is_epoch_hook (hooks_of (evs o))
     = [on_epoch_start; on_epoch_end; on_epoch_start; on_epoch_end;
        on_epoch_start; on_epoch_end]
  /\ filter (fired on_epoch_start) (evs o)
     = [Fired on_epoch_start 0; Fired on_epoch_start 1; Fired on_epoch_start 2]
  /\ filter is_val_epoch_hook (hooks_of (evs o)) = []
  /\ count_fired on_epoch_start (evs o) = 3%nat
  /\ count_fired on_epoch_end (evs o) = 3%nat
  /\ count_fired on_val_epoch_start (evs o) = 0%nat
  /\ count_fired on_val_epoch_end (evs o) = 0%nat.
Proof.
  apply (epoch_three_pairs_no_val calm_env (calm_model (Some (toy_dataset 2)))
           (toy_dataset 2) three_epochs_world calm_env_quiet); reflexivity.
Defined.

(** C4, an instance: a callback raises [KeyboardInterrupt] at the end of the
    train part of the first epoch; [fit] returns, the interruption is
    logged and the teardown is fired once. *)
Lemma fit_teardown_witness :
  let env := toy_env false in
  let self := toy_model [TrainEval; RaiseOn on_train_epoch_end KeyboardInterrupt] None in
  let o := fit env self (toy_dataset 1) 2 None [] true false (toy_world new_Mem) in
  count_fired clean_hook (evs o) = 1%nat
  /\ In (Logged "Keyboard interruption detected") (evs o)
  /\ exists self', res o = Ok (self', tracker (mem (post o))).
Proof.
  cbv zeta.
  refine (let H := proj1 (fit_teardown_once (toy_env false)
                            (toy_model [TrainEval; RaiseOn on_train_epoch_end KeyboardInterrupt]
                                       None)
                            (toy_dataset 1) 2 None [] true false (toy_world new_Mem))
                         _ eq_refl in _).
  destruct H as (Hcount & _ & _ & Hclean & _).
  destruct (Hclean eq_refl) as (_ & Hint & _).
  destruct (Hint eq_refl) as [Hres Hlog].
  split; [exact Hcount | split; [exact Hlog | eexists; exact Hres]].
Defined.

(** C4 as stated fails: when the data preparation raises, or the model is
    not compiled, [fit] is left by an exception and the teardown is never
    fired. *)
Lemma fit_setup_fault_skips_teardown :
  let o := fit (toy_env true) (toy_model [TrainEval] None) (toy_dataset 2) 1 None []
               true true (toy_world new_Mem) in
  let uncompiled := {| TEST := false; autodataset := None;
                       callback_runner := [TrainEval]; _compiled := false |} in
  let o' := fit (toy_env false) uncompiled (toy_dataset 2) 1 None []
                true true (toy_world new_Mem) in
  res o = Raise (Fault "prepare_data")
  /\ count_fired clean_hook (evs o) = 0%nat
  /\ res o' = Raise (ConfigError "assert compiled")
  /\ count_fired clean_hook (evs o') = 0%nat.
Proof. vm_compute. repeat split. Qed.

(** C5, an instance: the bundles of a used tracker are not the ones it
    holds after [reset], and they keep their contents. *)
Lemma reset_witness :
  let m' := reset used_mem in
  (train (tracker used_mem) <> train (tracker m')
   /\ train (tracker used_mem) <> val (tracker m')
   /\ deref (heap m') (train (tracker used_mem))
      = deref (heap used_mem) (train (tracker used_mem)))
  /\ observe (reset m') = observe m'.
Proof.
  cbv zeta.
  destruct (reset_defaults_fresh_idempotent used_mem)
    as (_ & _ & _ & _ & _ & _ & _ & _ & _ & Hold & Hidem).
  split; [apply Hold | exact Hidem].
  unfold allocated. simpl. lia.
Defined.

(** C6, an instance: an unknown key. *)
Lemma getitem_witness :
  getitem used_mem "accuracy" = Raise (KeyError "key accuracy is not implemented!").
Proof.
  destruct (getitem_four_views used_mem "accuracy") as (_ & _ & _ & _ & _ & _ & H).
  apply H; discriminate.
Defined.

(** C7, an instance: a second call of [fit] after a first one of two
    epochs. *)
Lemma fit_resume_witness :
  let env := toy_env false in
  let self := toy_model [TrainEval] None in
  let o_resume := fit_setup env self (toy_dataset 2) 4 None [] true false after_first_fit in
  let o_fresh := fit_setup env self (toy_dataset 2) 4 None [] false false after_first_fit in
  (current_epoch (tracker (mem (post o_resume))) = 1
   /\ List.length (logs (tracker (mem (post o_resume)))) = 8%nat)
  /\ observe (mem (post o_fresh))
     = {| obs_train := new_TrackingValues; obs_val := new_TrackingValues;
          obs_max_epochs := 4; obs_current_epoch := 0;
          obs_steps_per_epoch := None; obs_logs := [] |}.
Proof.
  cbv zeta.
  destruct (fit_resume_keeps_or_resets (toy_env false) (toy_model [TrainEval] None)
              (toy_dataset 2) (toy_dataset 2) 4 None [] false after_first_fit
              eq_refl eq_refl)
    as ((_ & _ & Hepoch & Hlogs & _) & (_ & _ & Hobs) & _).
  split; [split|exact Hobs].
  - rewrite Hepoch. reflexivity.
  - rewrite Hlogs. reflexivity.
Defined.

(** C8 as stated fails: the first cell of the row is the epoch index, a
    number, and it is written ["3"], not with three decimals; the float
    cells are. *)
Lemma epoch_cell_has_no_decimals :
  let row := hd [] (rows (create_table used_mem)) in
  current_epoch (tracker used_mem) = 3
  /\ row = ["3"; " 0.417"; " 0.500"; " 0.667"]
  /\ three_decimals (nth 0 row "") = false
  /\ forallb three_decimals (tl row) = true.
Proof. vm_compute. repeat split. Qed.

(** C9, an instance: five batches, [steps_per_epoch = 0]. *)
Lemma steps_zero_witness :
  let o := train_one_epoch calm_env (calm_model None) (seq 1 5) (limited_world 0) in
  res o = Ok tt /\ count_fired on_train_step_end (evs o) = 5%nat.
Proof.
  cbv zeta.
  destruct (steps_per_epoch_zero_is_no_limit calm_env (calm_model None) (seq 1 5)
              (limited_world 0) eq_refl eq_refl)
    as (_ & _ & H & _).
  destruct (H calm_env_quiet) as (Hr & _ & _ & Hc).
  split; [exact Hr | exact Hc].
Defined.

(** C10, an instance: the mode ["test"]. *)
Lemma track_unknown_mode_witness :
  track_loss used_mem (1 # 2) "test"
  = (Raise (KeyError "mode test is not implemented!"), used_mem)
  /\ track_metrics used_mem [("acc", 1 # 2)] "test"
     = (Raise (KeyError "mode test is not implemented!"), used_mem).
Proof.
  apply (track_unknown_mode_unchanged used_mem (1 # 2) [("acc", 1 # 2)] "test");
    discriminate.
Defined.

(** * More of the tracker: what a successful tracking call changes *)

Section TrackingCalls.

Lemma length_store (h : Heap) (l : loc) (v : TrackingValues) :
  List.length (store h l v) = List.length h.
Proof.
  revert l. induction h as [|x h IH]; intros [|l]; simpl; auto.
Qed.

Lemma deref_store_same (h : Heap) (l : loc) (v : TrackingValues) :
  allocated h l -> deref (store h l v) l = v.
Proof.
  unfold allocated, deref. revert l.
  induction h as [|x h IH]; intros [|l] Hl; simpl in *; try lia; auto.
  apply IH. lia.
Qed.

Lemma deref_store_other (h : Heap) (l l' : loc) (v : TrackingValues) :
  l <> l' -> deref (store h l v) l' = deref h l'.
Proof.
  unfold deref. revert l l'.
  induction h as [|x h IH]; intros [|l] [|l'] Hn; simpl; auto; try contradiction.
Qed.

Lemma mode_known (m : Mem) (mode_name : string) :
  mode_name = "train" \/ mode_name = "val" ->
  mode m mode_name
  = Ok (if String.eqb mode_name "train" then train (tracker m) else val (tracker m)).
Proof. intros [-> | ->]; reflexivity. Qed.

Lemma append_logs_fold (mode_name : string) (metric : list (string * Q)) (m : Mem) :
  let m' := fold_left (fun acc kv => _append_logs acc (mode_name +++ "/" +++ fst kv) (snd kv))
                      metric m in
  heap m' = heap m
  /\ train (tracker m') = train (tracker m)
  /\ val (tracker m') = val (tracker m)
  /\ max_epochs (tracker m') = max_epochs (tracker m)
  /\ current_epoch (tracker m') = current_epoch (tracker m)
  /\ steps_per_epoch (tracker m') = steps_per_epoch (tracker m)
  /\ logs (tracker m')
     = logs (tracker m)
       ++ map (fun kv => {| log_epoch := current_epoch (tracker m);
                            log_key := mode_name +++ "/" +++ fst kv;
                            log_value := snd kv |}) metric.
Proof.
  cbv zeta. revert m. induction metric as [|kv metric IH]; intros m.
  - simpl. now rewrite app_nil_r.
  - cbn [fold_left map].
    destruct (IH (_append_logs m (mode_name +++ "/" +++ fst kv) (snd kv)))
      as (H1 & H2 & H3 & H4 & H5 & H6 & H7).
    rewrite H1, H2, H3, H4, H5, H6, H7.
    unfold _append_logs, set_logs, set_tracker, to_item.
    cbn [heap tracker train val max_epochs current_epoch steps_per_epoch logs].
    repeat split; try reflexivity.
    now rewrite <- app_assoc.
Qed.

(** X1. [track_loss] with the mode ["train"] or ["val"] returns normally
    and appends one record to the log: the epoch index of the tracker at
    this moment, the key [mode/loss], the value. The records already in the
    log stay in front of it, the counters and the references to the two
    bundles are not changed and nothing is allocated. *)
Theorem track_loss_appends_one_record (m : Mem) (v : Q) (mode_name : string) :
  mode_name = "train" \/ mode_name = "val" ->
  let r := track_loss m v mode_name in
  fst r = Ok tt
  /\ logs (tracker (snd r))
     = logs (tracker m)
       ++ [{| log_epoch := current_epoch (tracker m);
              log_key := mode_name +++ "/loss";
              log_value := v |}]
  /\ current_epoch (tracker (snd r)) = current_epoch (tracker m)
  /\ max_epochs (tracker (snd r)) = max_epochs (tracker m)
  /\ steps_per_epoch (tracker (snd r)) = steps_per_epoch (tracker m)
  /\ train (tracker (snd r)) = train (tracker m)
  /\ val (tracker (snd r)) = val (tracker m)
  /\ List.length (heap (snd r)) = List.length (heap m).
Proof.
  intros Hm. cbv zeta. unfold track_loss. rewrite (mode_known m mode_name Hm).
  simpl. rewrite length_store.
  destruct Hm as [-> | ->]; repeat split.
Qed.

(** X2. [track_metrics] with the mode ["train"] or ["val"] returns normally
    and appends one record per metric, in the order of the mapping given,
    each with the epoch index of the tracker, the key [mode/name] and the
    value of this step; the counters and the references to the bundles are
    not changed and nothing is allocated. *)
Theorem track_metrics_appends_records (m : Mem) (metric : list (string * Q))
  (mode_name : string) :
  mode_name = "train" \/ mode_name = "val" ->
  let r := track_metrics m metric mode_name in
  fst r = Ok tt
  /\ logs (tracker (snd r))
     = logs (tracker m)
       ++ map (fun kv => {| log_epoch := current_epoch (tracker m);
                            log_key := mode_name +++ "/" +++ fst kv;
                            log_value := snd kv |}) metric
  /\ List.length (logs (tracker (snd r)))
     = (List.length (logs (tracker m)) + List.length metric)%nat
  /\ current_epoch (tracker (snd r)) = current_epoch (tracker m)
  /\ max_epochs (tracker (snd r)) = max_epochs (tracker m)
  /\ steps_per_epoch (tracker (snd r)) = steps_per_epoch (tracker m)
  /\ train (tracker (snd r)) = train (tracker m)
  /\ val (tracker (snd r)) = val (tracker m)
  /\ List.length (heap (snd r)) = List.length (heap m).
Proof.
  intros Hm. cbv zeta. unfold track_metrics. rewrite (mode_known m mode_name Hm).
  cbn [fst snd].
  match goal with
  | |- context [fold_left _ metric ?m1] =>
      destruct (append_logs_fold mode_name metric m1) as (H1 & H2 & H3 & H4 & H5 & H6 & H7)
  end.
  rewrite H1, H2, H3, H4, H5, H6, H7. cbn [set_heap heap tracker].
  rewrite length_store, length_app, length_map.
  repeat split.
Qed.

(** X3. On a tracker whose two bundles are distinct objects, tracking a
    loss or metrics in one mode changes the bundle of this mode only: the
    bundle of the mode becomes the old one with the value folded in, and
    the other mode's bundle (so its loss average and its metric mapping) is
    what it was. *)
Theorem track_touches_one_mode (m : Mem) (v : Q) (metric : list (string * Q)) :
  train (tracker m) <> val (tracker m) ->
  allocated (heap m) (train (tracker m)) ->
  allocated (heap m) (val (tracker m)) ->
  let after_loss_train := snd (track_loss m v "train") in
  let after_loss_val := snd (track_loss m v "val") in
  let after_metrics_train := snd (track_metrics m metric "train") in
  let after_metrics_val := snd (track_metrics m metric "val") in
  (observe_bundles after_loss_train
   = (update_loss (deref (heap m) (train (tracker m))) v, deref (heap m) (val (tracker m))))
  /\ (observe_bundles after_loss_val
      = (deref (heap m) (train (tracker m)), update_loss (deref (heap m) (val (tracker m))) v))
  /\ (observe_bundles after_metrics_train
      = (update_metrics (deref (heap m) (train (tracker m))) metric,
         deref (heap m) (val (tracker m))))
  /\ (observe_bundles after_metrics_val
      = (deref (heap m) (train (tracker m)),
         update_metrics (deref (heap m) (val (tracker m))) metric))
  /\ val_loss after_loss_train = val_loss m
  /\ val_metrics after_metrics_train = val_metrics m
  /\ train_loss after_loss_val = train_loss m
  /\ train_metrics after_metrics_val = train_metrics m.
Proof.
  intros Hne Ht Hv. cbv zeta.
  assert (Hlt : observe_bundles (snd (track_loss m v "train"))
                = (update_loss (deref (heap m) (train (tracker m))) v,
                   deref (heap m) (val (tracker m)))).
  { unfold observe_bundles, track_loss. simpl.
    now rewrite deref_store_same, deref_store_other. }
  assert (Hlv : observe_bundles (snd (track_loss m v "val"))
                = (deref (heap m) (train (tracker m)),
                   update_loss (deref (heap m) (val (tracker m))) v)).
  { unfold observe_bundles, track_loss. simpl.
    rewrite deref_store_same, deref_store_other; auto. }
  assert (Hmt : observe_bundles (snd (track_metrics m metric "train"))
                = (update_metrics (deref (heap m) (train (tracker m))) metric,
                   deref (heap m) (val (tracker m)))).
  { unfold observe_bundles, track_metrics. cbn [mode String.eqb Ascii.eqb Bool.eqb snd].
    match goal with
    | |- context [fold_left _ metric ?m1] =>
        destruct (append_logs_fold "train" metric m1) as (H1 & H2 & H3 & _)
    end.
    rewrite H1, H2, H3. cbn [set_heap heap tracker].
    now rewrite deref_store_same, deref_store_other. }
  assert (Hmv : observe_bundles (snd (track_metrics m metric "val"))
                = (deref (heap m) (train (tracker m)),
                   update_metrics (deref (heap m) (val (tracker m))) metric)).
  { unfold observe_bundles, track_metrics. cbn [mode String.eqb Ascii.eqb Bool.eqb snd].
    match goal with
    | |- context [fold_left _ metric ?m1] =>
        destruct (append_logs_fold "val" metric m1) as (H1 & H2 & H3 & _)
    end.
    rewrite H1, H2, H3. cbn [set_heap heap tracker].
    rewrite deref_store_same, deref_store_other; auto. }
  repeat split; try assumption.
  - unfold val_loss. change (deref (heap ?x) (val (tracker ?x))) with (snd (observe_bundles x)).
    now rewrite Hlt.
  - unfold val_metrics. change (deref (heap ?x) (val (tracker ?x))) with (snd (observe_bundles x)).
    now rewrite Hmt.
  - unfold train_loss.
    change (deref (heap ?x) (train (tracker ?x))) with (fst (observe_bundles x)).
    now rewrite Hlv.
  - unfold train_metrics.
    change (deref (heap ?x) (train (tracker ?x))) with (fst (observe_bundles x)).
    now rewrite Hmv.
Qed.

(** X4. The table of [create_table] has one row, with as many cells as
    there are headings: two, one more when a val loss was computed, and one
    for every train metric and every val metric. *)
Theorem create_table_row_fits_headings (m : Mem) :
  let t := create_table m in
  let n := (2 + (if computed (loss (deref (heap m) (val (tracker m)))) then 1 else 0)
            + List.length (train_metrics m) + List.length (val_metrics m))%nat in
  List.length (headings t) = n
  /\ (exists row, rows t = [row] /\ List.length row = n).
Proof.
  cbv zeta. unfold create_table.
  destruct (computed (loss (deref (heap m) (val (tracker m)))));
    rewrite !fold_columns; cbn [headings rows]; split.
  - rewrite !length_app, !length_map. simpl. lia.
  - eexists. split; [reflexivity|].
    rewrite length_map, !length_app, !length_map. simpl. lia.
  - rewrite !length_app, !length_map. simpl. lia.
  - eexists. split; [reflexivity|].
    rewrite length_map, !length_app, !length_map. simpl. lia.
Qed.

End TrackingCalls.

(** * More of the engine: steps, loops and their exits *)

Section EngineBehaviour.

Context {Batch Tensor Metrics CbId U : Type}.
Variable env : @Env Batch Tensor Metrics CbId U.

Implicit Types (self : @Model Batch CbId) (w : @World U).

Lemma count_in_blocks {A : Type} (h : Hook) (block : list Hook) (l : list A) :
  List.length (filter (Hook_eqb h) (List.concat (map (fun _ => block) l)))
  = (List.length l * List.length (filter (Hook_eqb h) block))%nat.
Proof.
  induction l as [|x l IH]; [reflexivity|].
  cbn [map List.concat]. rewrite filter_app, length_app, IH. simpl. lia.
Qed.

Lemma blocks_enumerate {A : Type} (block : list Hook) (l : list A) (i : Z) :
  List.concat (map (fun _ : Z * A => block) (enumerate_from i l))
  = List.concat (map (fun _ : A => block) l).
Proof.
  revert i. induction l as [|x l IH]; intros i; [reflexivity|].
  cbn [enumerate_from map List.concat]. now rewrite IH.
Qed.

Lemma val_iteration_quiet self (i : Z) (b : Batch) w :
  quiet env ->
  res (val_iteration env self i b w) = Ok tt
  /\ hooks_of (evs (val_iteration env self i b w)) = val_step_hooks.
Proof.
  intros Hq.
  assert (Hr : runs (val_iteration env self i b) val_step_hooks).
  { unfold val_iteration, set_val_steps, val_step.
    eapply runs_bind;
      [ apply runs_modify_mem
      | intros _; eapply runs_bind;
        [ now apply runs_fire
        | intros _; eapply runs_bind;
          [ now apply runs_step
          | intros o; now apply runs_fire
          | reflexivity ]
        | reflexivity ]
      | reflexivity ]. }
  destruct (Hr w) as [[[] Ha] Hh]. now split.
Qed.

Lemma val_loop_quiet self (items : list (Z * Batch)) w :
  quiet env -> res (val_loop env self items w) = Ok tt.
Proof.
  intros Hq. revert w. induction items as [|[i b] rest IH]; intros w; [reflexivity|].
  cbn [val_loop].
  destruct (val_iteration_quiet self i b w Hq) as [Hr _].
  rewrite (bind_run _ _ _ _ Hr). cbn [res].
  destruct (TEST self); [reflexivity | apply IH].
Qed.

Lemma val_loop_all self (items : list (Z * Batch)) w :
  quiet env -> TEST self = false ->
  hooks_of (evs (val_loop env self items w))
  = List.concat (map (fun _ => val_step_hooks) items).
Proof.
  intros Hq HT. revert w. induction items as [|[i b] rest IH]; intros w; [reflexivity|].
  cbn [val_loop map List.concat]. rewrite HT.
  destruct (val_iteration_quiet self i b w Hq) as [Hr Hh].
  rewrite (bind_run _ _ _ _ Hr). cbn [evs].
  now rewrite hooks_of_app, Hh, IH.
Qed.

(** X5. In [val_one_epoch] with [TEST] off every batch of the loader is
    stepped, whatever [steps_per_epoch] the tracker holds: the bound of
    [fit] limits the train loop only. (Nothing raising.) *)
Theorem val_one_epoch_steps_every_batch self (dl : list Batch) w :
  quiet env -> TEST self = false ->
  let o := val_one_epoch env self dl w in
  res o = Ok tt
  /\ hooks_of (evs o) = List.concat (map (fun _ => val_step_hooks) dl)
  /\ count_fired on_val_step_start (evs o) = List.length dl
  /\ count_fired on_val_step_end (evs o) = List.length dl
  /\ count_fired on_train_step_end (evs o) = 0%nat.
Proof.
  intros Hq HT. cbv zeta. unfold val_one_epoch, enumerate.
  assert (Hh := val_loop_all self (enumerate_from 0 dl) w Hq HT).
  rewrite blocks_enumerate in Hh.
  split; [now apply val_loop_quiet | split; [exact Hh|]].
  rewrite !count_fired_hooks, Hh, !count_in_blocks. simpl. lia.
Qed.

(** X6. In test mode ([TEST] on) the train loop and the validation loop
    leave after their first batch, whatever [steps_per_epoch] is and however
    many batches follow. (Nothing raising.) *)
Theorem test_mode_steps_once self (b : Batch) (rest : list Batch) w :
  quiet env -> TEST self = true ->
  let o_train := train_one_epoch env self (b :: rest) w in
  let o_val := val_one_epoch env self (b :: rest) w in
  (res o_train = Ok tt /\ hooks_of (evs o_train) = train_step_hooks)
  /\ (res o_val = Ok tt /\ hooks_of (evs o_val) = val_step_hooks).
Proof.
  intros Hq HT. cbv zeta. split.
  - unfold train_one_epoch, enumerate. cbn [enumerate_from train_loop]. rewrite HT.
    destruct (train_iteration_quiet env self 0 b w Hq) as [Hr Hh].
    rewrite (bind_run _ _ _ _ Hr). cbn [ret res evs].
    now rewrite app_nil_r.
  - unfold val_one_epoch, enumerate. cbn [enumerate_from val_loop]. rewrite HT.
    destruct (val_iteration_quiet self 0 b w Hq) as [Hr Hh].
    rewrite (bind_run _ _ _ _ Hr). cbn [ret res evs].
    now rewrite app_nil_r.
Qed.

Lemma train_loop_negative self (n : Z) (dl : list Batch) (i : Z) w :
  quiet env -> TEST self = false -> n < 0 -> 0 <= i ->
  res (train_loop env self (Some n) (enumerate_from i dl) w) = Ok tt
  /\ hooks_of (evs (train_loop env self (Some n) (enumerate_from i dl) w))
     = List.concat (map (fun _ => train_step_hooks) (firstn 1 dl)).
Proof.
  intros Hq HT Hn Hi. destruct dl as [|b dl]; [split; reflexivity|].
  cbn [enumerate_from train_loop firstn map List.concat]. rewrite HT.
  destruct (train_iteration_quiet env self i b w Hq) as [Hr Hh].
  rewrite (bind_run _ _ _ _ Hr). cbn [res evs].
  unfold step_limit_hit.
  replace (n =? 0) with false by (symmetry; apply Z.eqb_neq; lia).
  replace (i >=? n) with true by (symmetry; apply Z.geb_le; lia).
  cbn [negb andb ret res evs]. rewrite !app_nil_r. now split.
Qed.

(** X7. With [TEST] off and a bound [steps_per_epoch = n] other than 0,
    [train_one_epoch] steps the first [n + 1] batches of the loader when [n]
    is positive (the test is made after the step, on its 0-based index) and
    the first batch only when [n] is negative; a shorter loader is stepped
    whole. (Nothing raising.) *)
Theorem train_one_epoch_bound self (n : Z) (dl : list Batch) w :
  quiet env -> TEST self = false -> n <> 0 ->
  steps_per_epoch (tracker (mem w)) = Some n ->
  let o := train_one_epoch env self dl w in
  let k := Z.to_nat (Z.max 1 (n + 1)) in
  res o = Ok tt
  /\ hooks_of (evs o) = List.concat (map (fun _ => train_step_hooks) (firstn k dl))
  /\ count_fired on_train_step_start (evs o) = Nat.min k (List.length dl)
  /\ count_fired on_train_step_end (evs o) = Nat.min k (List.length dl).
Proof.
  intros Hq HT Hn Hs. cbv zeta. unfold train_one_epoch, enumerate. rewrite Hs.
  assert (H : res (train_loop env self (Some n) (enumerate_from 0 dl) w) = Ok tt
              /\ hooks_of (evs (train_loop env self (Some n) (enumerate_from 0 dl) w))
                 = List.concat (map (fun _ => train_step_hooks)
                                    (firstn (Z.to_nat (Z.max 1 (n + 1))) dl))).
  { destruct (Z.lt_total n 0) as [Hneg | [H0 | Hpos]]; [|contradiction|].
    - replace (Z.max 1 (n + 1)) with 1 by lia.
      apply train_loop_negative; auto; lia.
    - replace (Z.max 1 (n + 1)) with (n - 0 + 1) by lia.
      apply train_loop_limit; auto; lia. }
  destruct H as [Hr Hh].
  split; [exact Hr | split; [exact Hh|]].
  rewrite !count_fired_hooks, Hh, !count_in_blocks, length_firstn. simpl. lia.
Qed.

(** X8. [_val_epoch_with_event]: without a validation loader nothing is
    fired and nothing changes; with a loader of at least one batch (and
    [TEST] off, nothing raising) [on_val_epoch_start] is fired, every batch
    is stepped, and [on_val_epoch_end] is fired last. *)
Theorem val_epoch_hooks self (ds : AutoDataset) w :
  quiet env -> TEST self = false -> autodataset self = Some ds ->
  let o := _val_epoch_with_event env self w in
  (val_dataloader ds = None -> o = mkOut (Ok tt) w [])
  /\ (forall b l, val_dataloader ds = Some (b :: l) ->
        res o = Ok tt
        /\ hooks_of (evs o)
           = on_val_epoch_start
             :: List.concat (map (fun _ => val_step_hooks) (b :: l))
             ++ [on_val_epoch_end]).
Proof.
  intros Hq HT Hds. cbv zeta. unfold _val_epoch_with_event. rewrite Hds. split.
  - now intros ->.
  - intros b l ->. cbn [falsy_loader].
    rewrite (bind_run _ _ w tt (fire_quiet env _ _ _ _ Hq)). cbn [res evs].
    rewrite evs_fire.
    set (w1 := post (fire env self on_val_epoch_start None w)).
    rewrite (bind_run (val_one_epoch env self (b :: l)) _ w1 tt)
      by (now apply val_loop_quiet).
    cbn [res evs]. rewrite evs_fire.
    split; [now apply fire_quiet|].
    cbn [app hooks_of]. rewrite hooks_of_app. cbn [hooks_of].
    unfold val_one_epoch, enumerate.
    now rewrite (val_loop_all self _ w1 Hq HT), blocks_enumerate.
Qed.

(** ** Exceptions inside a step *)

(** X9. [forward_once] has no handler around the forward pass: when the
    learner raises (the [on_forward_start] hook having returned), [step]
    raises the same exception, [on_forward_end] is not fired, and neither
    the loss nor the metrics are computed: the collaborators are left as
    the forward pass left them, the tracker as the hook left it. *)
Theorem forward_fault_skips_forward_end self (b : Batch) (e : Exn) w :
  let o_start := fire env self on_forward_start None w in
  res o_start = Ok tt ->
  fst (forward env (fetch_inputs env b) (user (post o_start))) = Raise e ->
  let o := step env self b w in
  res o = Raise e
  /\ evs o = [Fired on_forward_start (current_epoch (tracker (mem w)))]
  /\ count_fired on_forward_end (evs o) = 0%nat
  /\ mem (post o) = mem (post o_start)
  /\ user (post o) = snd (forward env (fetch_inputs env b) (user (post o_start))).
Proof.
  intros o_start Hs Hf o. subst o o_start.
  assert (Hfo : forward_once env self (fetch_inputs env b) w
                = mkOut (Raise e)
                    (post (call (forward env (fetch_inputs env b))
                                (post (fire env self on_forward_start None w))))
                    [Fired on_forward_start (current_epoch (tracker (mem w)))]).
  { unfold forward_once. rewrite (bind_run _ _ _ _ Hs). cbn [res post evs].
    rewrite (bind_raise _ _ _ e) by exact Hf.
    cbn [res post evs call]. now rewrite evs_fire, app_nil_r. }
  unfold step. rewrite (bind_raise _ _ w e) by now rewrite Hfo.
  rewrite Hfo. cbn [res post evs call mem user]. repeat split.
Qed.

Lemma enumerate_from_app {A : Type} (i : Z) (a b : list A) :
  enumerate_from i (a ++ b)
  = enumerate_from i a ++ enumerate_from (i + Z.of_nat (List.length a)) b.
Proof.
  revert i. induction a as [|x a IH]; intros i.
  - simpl. now rewrite Z.add_0_r.
  - cbn [app enumerate_from List.length]. rewrite IH.
    now replace (i + 1 + Z.of_nat (List.length a)) with (i + Z.of_nat (S (List.length a)))
      by lia.
Qed.

Lemma enumerate_from_index {A : Type} (i : Z) (l : list A) (it : Z * A) :
  In it (enumerate_from i l) -> i <= fst it < i + Z.of_nat (List.length l).
Proof.
  revert i. induction l as [|x l IH]; intros i; [intros []|].
  cbn [enumerate_from List.length]. intros [<- | H]; simpl; [lia|].
  apply IH in H. lia.
Qed.

Lemma train_loop_app self (spe : option Z) (pre l : list (Z * Batch)) w :
  TEST self = false ->
  (forall it, In it pre -> step_limit_hit spe (fst it) = false) ->
  res (train_loop env self spe pre w) = Ok tt ->
  let o_pre := train_loop env self spe pre w in
  let o_l := train_loop env self spe l (post o_pre) in
  train_loop env self spe (pre ++ l) w = mkOut (res o_l) (post o_l) (evs o_pre ++ evs o_l).
Proof.
  intros HT. revert w. induction pre as [|[i b] pre IH]; intros w Hlim H; cbv zeta.
  - simpl. now rewrite out_eta.
  - cbn [train_loop app] in *. rewrite HT in *.
    pose proof (Hlim (i, b) (or_introl eq_refl)) as Hi. cbn [fst] in Hi.
    rewrite Hi in H. rewrite !Hi.
    destruct (res (train_iteration env self i b w)) as [[]|x] eqn:Ea.
    + rewrite (bind_run _ _ _ _ Ea) in H. rewrite !(bind_run _ _ _ _ Ea).
      cbn [res post evs] in *.
      rewrite (IH _ (fun it Hin => Hlim it (or_intror Hin)) H).
      cbn [res post evs]. now rewrite app_assoc.
    + rewrite (bind_raise _ _ _ _ Ea) in H. discriminate.
Qed.

Lemma emits_train_steps (ok : Hook -> bool) self (spe : option Z) (items : list (Z * Batch)) :
  (forall h, In h train_step_hooks -> ok h = true) ->
  emits (only ok) (train_loop env self spe items).
Proof.
  intros Hok. induction items as [|[i b] rest IH]; cbn [train_loop].
  - apply emits_ret.
  - apply emits_bind.
    + unfold train_iteration, set_train_steps, train_step.
      apply emits_bind; [apply emits_modify_mem | intros _].
      apply emits_bind; [apply emits_fire, Hok; simpl; auto | intros _].
      apply emits_bind; [|intros o; apply emits_fire, Hok; simpl; auto].
      apply emits_step; apply Hok; simpl; auto.
    + intros _. destruct (TEST self); [apply emits_ret|].
      destruct (step_limit_hit spe i); [apply emits_ret | exact IH].
Qed.

(** X10. An exception in the step of a batch ends the train part of the
    epoch: with the batches [pre] stepped before it (none of them reaching
    the bound), [_train_epoch_with_event] raises the exception of the step
    of [b], the batches [rest] after it are not touched and
    [on_train_epoch_end] is not fired. *)
Theorem train_step_fault_ends_train_part self (ds : AutoDataset) (pre rest : list Batch)
  (b : Batch) (e : Exn) w :
  TEST self = false ->
  autodataset self = Some ds ->
  train_dataloader ds = pre ++ b :: rest ->
  let o_start := fire env self on_train_epoch_start None w in
  res o_start = Ok tt ->
  let spe := steps_per_epoch (tracker (mem (post o_start))) in
  (forall i, 0 <= i < Z.of_nat (List.length pre) -> step_limit_hit spe i = false) ->
  let o_pre := train_loop env self spe (enumerate pre) (post o_start) in
  res o_pre = Ok tt ->
  let o_it := train_iteration env self (Z.of_nat (List.length pre)) b (post o_pre) in
  res o_it = Raise e ->
  let o := _train_epoch_with_event env self w in
  o = mkOut (Raise e) (post o_it) (evs o_start ++ evs o_pre ++ evs o_it)
  /\ count_fired on_train_epoch_end (evs o) = 0%nat.
Proof.
  intros HT Hds Hdl o_start Hs spe Hlim o_pre Hpre o_it Hit o.
  assert (Hloop : train_one_epoch env self (pre ++ b :: rest) (post o_start)
                  = mkOut (Raise e) (post o_it) (evs o_pre ++ evs o_it)).
  { unfold train_one_epoch. fold spe. unfold enumerate.
    rewrite enumerate_from_app. cbn [enumerate_from].
    rewrite (train_loop_app self spe _ _ _ HT); [|
      intros it Hin; apply Hlim; apply enumerate_from_index in Hin; lia |
      exact Hpre].
    fold (enumerate pre). fold o_pre. cbn [train_loop Z.add].
    fold o_it. now rewrite (bind_raise _ _ _ _ Hit). }
  assert (Ho : o = mkOut (Raise e) (post o_it) (evs o_start ++ evs o_pre ++ evs o_it)).
  { subst o. unfold _train_epoch_with_event. rewrite Hds, Hdl.
    rewrite (bind_run _ _ _ _ Hs). fold o_start.
    rewrite (bind_raise _ _ (post o_start) e) by now rewrite Hloop.
    now rewrite Hloop. }
  split; [exact Ho|].
  rewrite Ho. cbn [evs].
  assert (Hok : forall h, In h train_step_hooks ->
                          negb (Hook_eqb h on_train_epoch_end) = true).
  { intros h [<-|[<-|[<-|[<-|[]]]]]; reflexivity. }
  assert (Hc_pre : count_fired on_train_epoch_end (evs o_pre) = 0%nat).
  { apply (count_fired_none (fun h => negb (Hook_eqb h on_train_epoch_end)));
      [now apply emits_train_steps | reflexivity]. }
  assert (Hc_it : count_fired on_train_epoch_end (evs o_it) = 0%nat).
  { assert (Hone : evs o_it
                   = evs (train_loop env self None
                            [(Z.of_nat (List.length pre), b)] (post o_pre))).
    { cbn [train_loop]. fold o_it. now rewrite (bind_raise _ _ _ _ Hit). }
    rewrite Hone.
    apply (count_fired_none (fun h => negb (Hook_eqb h on_train_epoch_end)));
      [now apply emits_train_steps | reflexivity]. }
  rewrite !count_fired_app, Hc_pre, Hc_it. unfold o_start. now rewrite evs_fire.
Qed.

(** ** The epochs of a run *)

Lemma range_empty (a b : Z) : b <= a -> range a b = [].
Proof. intros H. unfold range. now replace (Z.to_nat (b - a)) with 0%nat by lia. Qed.

Lemma range_cons (a b : Z) : a < b -> range a b = a :: range (a + 1) b.
Proof.
  intros H. unfold range.
  replace (Z.to_nat (b - a)) with (S (Z.to_nat (b - (a + 1)))) by lia.
  cbn [seq map]. rewrite <- seq_shift, map_map. f_equal; [lia|].
  apply map_ext. intros k. lia.
Qed.

Lemma range_length (a b : Z) : List.length (range a b) = Z.to_nat (b - a).
Proof. unfold range. now rewrite length_map, length_seq. Qed.

Lemma range_last (a b : Z) : a < b -> last (range a b) 0 = b - 1.
Proof.
  intros H. unfold range.
  replace (Z.to_nat (b - a)) with (S (Z.to_nat (b - a - 1))) by lia.
  rewrite seq_S, map_app. cbn [map]. rewrite last_last. lia.
Qed.

Lemma val_epoch_quiet self (ds : AutoDataset) w :
  quiet env -> autodataset self = Some ds ->
  res (_val_epoch_with_event env self w) = Ok tt.
Proof.
  intros Hq Hds. unfold _val_epoch_with_event. rewrite Hds.
  destruct (falsy_loader (val_dataloader ds)); [reflexivity|].
  rewrite (bind_run _ _ w tt (fire_quiet env _ _ _ _ Hq)). cbn [res].
  rewrite (bind_run (val_one_epoch env self _) _ _ tt) by now apply val_loop_quiet.
  cbn [res]. now apply fire_quiet.
Qed.

Lemma inner_hook_train (h : Hook) : is_train_phase h = true -> is_inner_hook h = true.
Proof. unfold is_inner_hook. now intros ->. Qed.

Lemma inner_hook_val (h : Hook) : is_val_phase h = true -> is_inner_hook h = true.
Proof. unfold is_inner_hook. intros ->. apply orb_true_r. Qed.

(** One iteration of the epoch loop when nothing raises, whatever the
    dataset holds. *)
Lemma epoch_iteration_any self (ds : AutoDataset) (e : Z) w :
  quiet env -> autodataset self = Some ds ->
  let o := epoch_iteration env self e w in
  res o = Ok tt
  /\ exists mid e_end,
       evs o = Fired on_epoch_start e :: mid ++ [Fired on_epoch_end e_end]
       /\ Forall (only is_inner_hook) mid.
Proof.
  intros Hq Hds. cbv zeta. unfold epoch_iteration.
  rewrite (bind_run (modify_mem _) _ w tt eq_refl). cbn [res post evs modify_mem].
  set (w1 := {| mem := set_current_epoch (mem w) e; user := user w |}).
  rewrite (bind_run _ _ w1 tt (fire_quiet env _ _ _ _ Hq)). cbn [res post evs].
  rewrite evs_fire.
  set (w2 := post (fire env self on_epoch_start None w1)).
  rewrite (bind_run _ _ w2 tt (train_epoch_quiet env self ds w2 Hq Hds)).
  cbn [res post evs].
  set (w3 := post (_train_epoch_with_event env self w2)).
  rewrite (bind_run _ _ w3 tt (val_epoch_quiet self ds w3 Hq Hds)).
  cbn [res post evs]. rewrite evs_fire.
  split; [now apply fire_quiet|].
  exists (evs (_train_epoch_with_event env self w2) ++ evs (_val_epoch_with_event env self w3)),
         (current_epoch (tracker (mem (post (_val_epoch_with_event env self w3))))).
  split; [cbn [app]; now rewrite <- app_assoc|].
  apply Forall_app. split.
  - apply emits_train_epoch, inner_hook_train.
  - apply emits_val_epoch, inner_hook_val.
Qed.

Lemma epoch_loop_any self (ds : AutoDataset) (epochs : list Z) w :
  quiet env -> autodataset self = Some ds ->
  let ran := if TEST self then firstn 1 epochs else epochs in
  let o := epoch_loop env self epochs w in
  res o = Ok tt
  /\ filter (fired on_epoch_start) (evs o) = map (Fired on_epoch_start) ran
  /\ count_fired on_epoch_end (evs o) = List.length ran.
Proof.
  intros Hq Hds. cbv zeta. revert w.
  induction epochs as [|e rest IH]; intros w.
  - destruct (TEST self); repeat split.
  - cbn [epoch_loop].
    destruct (epoch_iteration_any self ds e w Hq Hds) as (Hr & mid & e_end & He & Hmid).
    rewrite (bind_run _ _ _ _ Hr). cbn [res evs].
    assert (H1 : filter (fired on_epoch_start) (evs (epoch_iteration env self e w))
                 = [Fired on_epoch_start e]).
    { rewrite He. cbn [filter fired Hook_eqb]. rewrite filter_app.
      rewrite (filter_fired_none is_inner_hook on_epoch_start mid Hmid eq_refl).
      reflexivity. }
    assert (H2 : count_fired on_epoch_end (evs (epoch_iteration env self e w)) = 1%nat).
    { rewrite He. unfold count_fired. cbn [filter fired Hook_eqb]. rewrite filter_app.
      rewrite (filter_fired_none is_inner_hook on_epoch_end mid Hmid eq_refl).
      reflexivity. }
    rewrite filter_app, count_fired_app, H1, H2.
    destruct (TEST self) eqn:HT.
    + cbn [ret res evs firstn map List.length]. repeat split.
    + destruct (IH (post (epoch_iteration env self e w))) as (Hr' & H1' & H2').
      rewrite H1', H2'. repeat split; assumption.
Qed.

(** X11. [epoch] runs the epochs from [tracker.current_epoch] up to, and
    without, [tracker.max_epochs], as read when it starts: with [TEST] off
    it fires [on_epoch_start] once per epoch, in increasing order, with
    the epoch index just written to the tracker, and [on_epoch_end] as many
    times (no epoch at all when [max_epochs <= current_epoch]); with
    [TEST] on only the first of them is run. (Nothing raising.) *)
Theorem epoch_runs_remaining_epochs self (ds : AutoDataset) w :
  quiet env -> autodataset self = Some ds ->
  let first := current_epoch (tracker (mem w)) in
  let bound := max_epochs (tracker (mem w)) in
  let o := epoch env self w in
  res o = Ok tt
  /\ (TEST self = false ->
        filter (fired on_epoch_start) (evs o) = map (Fired on_epoch_start) (range first bound)
        /\ count_fired on_epoch_start (evs o) = Z.to_nat (bound - first)
        /\ count_fired on_epoch_end (evs o) = Z.to_nat (bound - first))
  /\ (TEST self = true -> first < bound ->
        filter (fired on_epoch_start) (evs o) = [Fired on_epoch_start first]
        /\ count_fired on_epoch_end (evs o) = 1%nat)
  /\ (bound <= first -> o = mkOut (Ok tt) w []).
Proof.
  intros Hq Hds. cbv zeta. rewrite epoch_unfold.
  destruct (epoch_loop_any self ds
              (range (current_epoch (tracker (mem w))) (max_epochs (tracker (mem w)))) w
              Hq Hds) as (Hr & H1 & H2).
  split; [exact Hr | split; [|split]].
  - intros HT. rewrite HT in H1, H2.
    split; [exact H1 | split].
    + unfold count_fired. now rewrite H1, length_map, range_length.
    + now rewrite H2, range_length.
  - intros HT Hlt. rewrite HT in H1, H2.
    rewrite (range_cons _ _ Hlt) in H1, H2 |- *. now split.
  - intros Hle. now rewrite (range_empty _ _ Hle).
Qed.

(** X12. [epoch] on a model that no dataset was bound to ([autodataset] is
    [None], as before the first [fit]): when an epoch remains to be run,
    [on_epoch_start] is fired for it and the train part then fails with
    [AttributeError]; no other hook is fired. *)
Theorem epoch_without_dataset self w :
  autodataset self = None ->
  let first := current_epoch (tracker (mem w)) in
  first < max_epochs (tracker (mem w)) ->
  let w1 := {| mem := set_current_epoch (mem w) first; user := user w |} in
  res (fire env self on_epoch_start None w1) = Ok tt ->
  let o := epoch env self w in
  res o = Raise (AttributeError "train_dataloader")
  /\ evs o = [Fired on_epoch_start first].
Proof.
  intros Hds first Hlt w1 Hs o. subst o.
  rewrite epoch_unfold. fold first. rewrite (range_cons _ _ Hlt).
  cbn [epoch_loop]. unfold epoch_iteration.
  assert (Hit : bind (modify_mem (fun m => set_current_epoch m first))
                  (fun _ => bind (fire env self on_epoch_start None)
                     (fun _ => bind (_train_epoch_with_event env self)
                        (fun _ => bind (_val_epoch_with_event env self)
                           (fun _ => fire env self on_epoch_end None)))) w
                = mkOut (Raise (AttributeError "train_dataloader"))
                        (post (fire env self on_epoch_start None w1))
                        [Fired on_epoch_start first]).
  { rewrite (bind_run (modify_mem _) _ w tt eq_refl). cbn [res post evs modify_mem].
    fold w1. rewrite (bind_run _ _ w1 tt Hs). cbn [res post evs].
    rewrite evs_fire.
    assert (Htr : forall w', _train_epoch_with_event env self w'
                             = mkOut (Raise (AttributeError "train_dataloader")) w' []).
    { intros w'. unfold _train_epoch_with_event. now rewrite Hds. }
    rewrite (bind_raise (_train_epoch_with_event env self) _ _
               (AttributeError "train_dataloader")) by now rewrite Htr.
    rewrite Htr. reflexivity. }
  rewrite (bind_raise _ _ w (AttributeError "train_dataloader")) by now rewrite Hit.
  rewrite Hit. now split.
Qed.

(** ** The epoch index a run leaves *)

(** No callback writes [tracker.current_epoch]. *)
Definition callbacks_keep_epoch : Prop :=
  forall c h p w,
    current_epoch (tracker (mem (snd (handler env c h p w))))
    = current_epoch (tracker (mem w)).

(** A computation that leaves [tracker.current_epoch] as it found it,
    whatever its outcome. *)
Definition keeps_epoch {A : Type} (m : M A) : Prop :=
  forall w, current_epoch (tracker (mem (post (m w)))) = current_epoch (tracker (mem w)).

Lemma keeps_ret {A : Type} (a : A) : keeps_epoch (@ret U A a).
Proof. intros w. reflexivity. Qed.

Lemma keeps_raise {A : Type} (e : Exn) : keeps_epoch (@raise U A e).
Proof. intros w. reflexivity. Qed.

Lemma keeps_bind {A B : Type} (m : M A) (k : A -> M B) :
  keeps_epoch m -> (forall a, keeps_epoch (k a)) -> keeps_epoch (bind m k).
Proof.
  intros Hm Hk w. unfold bind.
  destruct (res (m w)) as [a|e]; cbn [post]; [|apply Hm].
  now rewrite Hk, Hm.
Qed.

Lemma keeps_call {A : Type} (f : U -> Res A * U) : keeps_epoch (call f).
Proof. intros w. reflexivity. Qed.

Lemma keeps_set_steps (f : Mem -> Heap) :
  keeps_epoch (@modify_mem U (fun m => set_heap m (f m))).
Proof. intros w. reflexivity. Qed.

Lemma keeps_broadcast (cbs : list CbId) (h : Hook) (p : option (Batch * Outputs)) :
  callbacks_keep_epoch -> keeps_epoch (broadcast env cbs h p).
Proof.
  intros Hk. induction cbs as [|c cbs IH]; cbn [broadcast].
  - apply keeps_ret.
  - apply keeps_bind; [|intros _; exact IH].
    intros w. cbn [post]. apply Hk.
Qed.

Lemma keeps_fire self (h : Hook) (p : option (Batch * Outputs)) :
  callbacks_keep_epoch -> keeps_epoch (fire env self h p).
Proof. intros Hk w. unfold fire; cbn [post]. now apply keeps_broadcast. Qed.

Lemma keeps_step self (b : Batch) :
  callbacks_keep_epoch -> keeps_epoch (step env self b).
Proof.
  intros Hk. unfold step, forward_once, calculate_metrics.
  repeat first
    [ apply keeps_bind; [|intros ?]
    | now apply keeps_fire
    | apply keeps_call
    | apply keeps_ret ].
Qed.

Lemma keeps_train_loop self (spe : option Z) (items : list (Z * Batch)) :
  callbacks_keep_epoch -> keeps_epoch (train_loop env self spe items).
Proof.
  intros Hk. induction items as [|[i b] rest IH]; cbn [train_loop].
  - apply keeps_ret.
  - apply keeps_bind.
    + unfold train_iteration, set_train_steps, train_step.
      apply keeps_bind; [apply keeps_set_steps | intros _].
      apply keeps_bind; [now apply keeps_fire | intros _].
      apply keeps_bind; [now apply keeps_step | intros o; now apply keeps_fire].
    + intros _. destruct (TEST self); [apply keeps_ret|].
      destruct (step_limit_hit spe i); [apply keeps_ret | exact IH].
Qed.

Lemma keeps_val_loop self (items : list (Z * Batch)) :
  callbacks_keep_epoch -> keeps_epoch (val_loop env self items).
Proof.
  intros Hk. induction items as [|[i b] rest IH]; cbn [val_loop].
  - apply keeps_ret.
  - apply keeps_bind.
    + unfold val_iteration, set_val_steps, val_step.
      apply keeps_bind; [apply keeps_set_steps | intros _].
      apply keeps_bind; [now apply keeps_fire | intros _].
      apply keeps_bind; [now apply keeps_step | intros o; now apply keeps_fire].
    + intros _. destruct (TEST self); [apply keeps_ret | exact IH].
Qed.

Lemma keeps_train_epoch self :
  callbacks_keep_epoch -> keeps_epoch (_train_epoch_with_event env self).
Proof.
  intros Hk. unfold _train_epoch_with_event.
  destruct (autodataset self) as [ds|]; [|apply keeps_raise].
  apply keeps_bind; [now apply keeps_fire | intros _].
  apply keeps_bind; [|intros _; now apply keeps_fire].
  intros w. unfold train_one_epoch. now apply keeps_train_loop.
Qed.

Lemma keeps_val_epoch self :
  callbacks_keep_epoch -> keeps_epoch (_val_epoch_with_event env self).
Proof.
  intros Hk. unfold _val_epoch_with_event.
  destruct (autodataset self) as [ds|]; [|apply keeps_raise].
  destruct (falsy_loader (val_dataloader ds)); [apply keeps_ret|].
  apply keeps_bind; [now apply keeps_fire | intros _].
  apply keeps_bind; [|intros _; now apply keeps_fire].
  unfold val_one_epoch. now apply keeps_val_loop.
Qed.

(** However an iteration of the epoch loop ends, it leaves the index of its
    epoch on the tracker. *)
Lemma epoch_iteration_index self (e : Z) w :
  callbacks_keep_epoch ->
  current_epoch (tracker (mem (post (epoch_iteration env self e w)))) = e.
Proof.
  intros Hk. unfold epoch_iteration.
  rewrite (bind_run (modify_mem _) _ w tt eq_refl). cbn [res post evs modify_mem].
  match goal with
  | |- context [post (?m ?w1)] =>
      assert (Hm : keeps_epoch m); [|now rewrite (Hm w1)]
  end.
  apply keeps_bind; [now apply keeps_fire | intros _].
  apply keeps_bind; [now apply keeps_train_epoch | intros _].
  apply keeps_bind; [now apply keeps_val_epoch | intros _; now apply keeps_fire].
Qed.

Lemma epoch_loop_index self (epochs : list Z) w :
  callbacks_keep_epoch -> TEST self = false -> epochs <> [] ->
  res (epoch_loop env self epochs w) = Ok tt ->
  current_epoch (tracker (mem (post (epoch_loop env self epochs w)))) = last epochs 0.
Proof.
  intros Hk HT. revert w. induction epochs as [|e rest IH]; intros w Hne H; [contradiction|].
  cbn [epoch_loop] in *. rewrite HT in *.
  destruct (res (epoch_iteration env self e w)) as [[]|x] eqn:Ea.
  - rewrite (bind_run _ _ _ _ Ea) in H. rewrite (bind_run _ _ _ _ Ea).
    cbn [res post] in *.
    destruct rest as [|e' rest'].
    + cbn [epoch_loop ret post last]. now apply epoch_iteration_index.
    + rewrite IH; [reflexivity | discriminate | exact H].
  - rewrite (bind_raise _ _ _ _ Ea) in H. discriminate.
Qed.

(** X13. When [epoch] returns normally (with [TEST] off, at least one epoch
    to run, and callbacks that do not write [tracker.current_epoch]), the
    tracker holds the index of the last epoch run, [max_epochs - 1], not
    [max_epochs]: a further [epoch] with the same [max_epochs] (a [fit]
    with [resume]) runs that last epoch once more. *)
Theorem epoch_leaves_last_index self w :
  callbacks_keep_epoch -> TEST self = false ->
  let bound := max_epochs (tracker (mem w)) in
  current_epoch (tracker (mem w)) < bound ->
  let o := epoch env self w in
  res o = Ok tt ->
  current_epoch (tracker (mem (post o))) = bound - 1
  /\ range (current_epoch (tracker (mem (post o)))) bound = [bound - 1].
Proof.
  intros Hk HT bound Hlt o Hr. subst o.
  rewrite epoch_unfold in *. fold bound in Hr |- *.
  assert (Hidx : current_epoch
                   (tracker (mem (post (epoch_loop env self
                                          (range (current_epoch (tracker (mem w))) bound) w))))
                 = bound - 1).
  { rewrite epoch_loop_index; auto.
    - now apply range_last.
    - rewrite (range_cons _ _ Hlt). discriminate. }
  split; [exact Hidx|].
  rewrite Hidx, range_cons by lia.
  now rewrite range_empty by lia.
Qed.

(** ** The statements of [fit] before its [try] *)

Lemma fold_left_append (cbs : list CbId) self :
  fold_left append cbs self
  = {| TEST := TEST self; autodataset := autodataset self;
       callback_runner := callback_runner self ++ cbs; _compiled := _compiled self |}.
Proof.
  revert self. induction cbs as [|c cbs IH]; intros self; cbn [fold_left].
  - rewrite app_nil_r. now destruct self.
  - rewrite IH. unfold append. cbn [TEST autodataset callback_runner _compiled].
    now rewrite <- app_assoc.
Qed.

(** X14. On a compiled model whose data preparation returns, the set-up of
    [fit] binds the prepared dataset and registers the callbacks after the
    ones already registered, in this order: the progress callback when
    [show_progress], then the callbacks given, in the order given. [TEST]
    and the compiled flag are not changed, and no hook is fired. *)
Theorem fit_setup_registers_in_order self (ds ds' : AutoDataset) (max_e : Z)
  (spe : option Z) (cbs : list CbId) (resume show : bool) w :
  _compiled self = true ->
  fst (prepare_data env ds (user w)) = Ok ds' ->
  let o := fit_setup env self ds max_e spe cbs resume show w in
  res o
  = Ok {| TEST := TEST self; autodataset := Some ds';
          callback_runner :=
            callback_runner self ++ (if show then [ProgressCallback env] else []) ++ cbs;
          _compiled := true |}
  /\ evs o = []
  /\ user (post o) = snd (prepare_data env ds (user w)).
Proof.
  intros Hc Hp. cbv zeta.
  assert (Hcall : res (call (prepare_data env ds) w) = Ok ds') by exact Hp.
  split; [|split; [apply evs_fit_setup|]].
  - unfold fit_setup, assert_compiled. rewrite Hc.
    rewrite (bind_run (ret tt) _ w tt eq_refl). cbn [ret res post evs].
    rewrite (bind_run _ _ w ds' Hcall). cbn [res post evs].
    rewrite fold_left_append.
    unfold bind, modify_mem, ret.
    destruct (negb resume), show; cbn [res post evs append TEST autodataset
                                         callback_runner _compiled app];
      now rewrite <- ?app_assoc.
  - unfold fit_setup, assert_compiled. rewrite Hc.
    rewrite (bind_run (ret tt) _ w tt eq_refl). cbn [ret res post evs].
    rewrite (bind_run _ _ w ds' Hcall). cbn [res post evs].
    unfold bind, modify_mem, ret, call.
    destruct (negb resume); reflexivity.
Qed.

(** X15. When the set-up of [fit] fails (the model is not compiled, or the
    data preparation raises), [fit] raises the same exception with the
    tracker exactly as it was, also when [resume] is off (the reset comes
    after the two checks), and no hook is fired. *)
Theorem fit_setup_failure_keeps_tracker self (ds : AutoDataset) (max_e : Z)
  (spe : option Z) (cbs : list CbId) (resume show : bool) (e : Exn) w :
  res (fit_setup env self ds max_e spe cbs resume show w) = Raise e ->
  let o := fit env self ds max_e spe cbs resume show w in
  res o = Raise e
  /\ mem (post o) = mem w
  /\ evs o = []
  /\ (_compiled self = false -> e = ConfigError "assert compiled" /\ post o = w)
  /\ (_compiled self = true -> fst (prepare_data env ds (user w)) = Raise e).
Proof.
  intros Hs. cbv zeta.
  assert (Hfit : fit env self ds max_e spe cbs resume show w
                 = mkOut (Raise e)
                         (post (fit_setup env self ds max_e spe cbs resume show w)) []).
  { unfold fit. rewrite (bind_raise _ _ _ _ Hs). now rewrite evs_fit_setup. }
  rewrite Hfit. cbn [res post evs].
  revert Hs. unfold fit_setup, assert_compiled.
  destruct (_compiled self).
  - rewrite (bind_run (ret tt) _ w tt eq_refl). cbn [ret res post evs].
    destruct (fst (prepare_data env ds (user w))) as [ds'|x] eqn:Ep.
    + rewrite (bind_run (call (prepare_data env ds)) _ w ds' Ep). cbn [res].
      unfold bind, modify_mem, ret. destruct (negb resume); cbn [res]; discriminate.
    + rewrite (bind_raise (call (prepare_data env ds)) _ w x Ep). cbn [res post call mem].
      intros H. inversion H. subst x.
      repeat split; discriminate.
  - rewrite (bind_raise (raise _) _ w (ConfigError "assert compiled") eq_refl).
    cbn [raise res post]. intros H. inversion H.
    repeat split; discriminate.
Qed.

(** ** Cancelling the fit scope *)

(** X16. [FitCancel] raised inside the epoch loop (the start hooks of the
    two scopes having returned) passes through the "epoch" scope, which
    only intercepts [EpochCancel]: neither the [on_epoch_end] of that scope
    nor the [on_fit_end] of [_fit_with_event] is fired and no further epoch
    is run. The "fit" scope of [fit] intercepts it and fires [on_fit_end]
    once; when this hook returns, the teardown is fired and [fit]'s [try]
    ends with the outcome of the teardown. *)
Theorem fit_cancel_ends_run self w :
  let o1 := fire env self on_fit_start None w in
  res o1 = Ok tt ->
  let o2 := fire env self on_fit_start None (post o1) in
  res o2 = Ok tt ->
  let o3 := fire env self on_epoch_start None (post o2) in
  res o3 = Ok tt ->
  let o4 := epoch env self (post o3) in
  res o4 = Raise FitCancel ->
  let o5 := fire env self on_fit_end None (post o4) in
  res o5 = Ok tt ->
  let o6 := clean env self (post o5) in
  res (_fit_with_event env self (post o1)) = Raise FitCancel
  /\ fit_run env self w
     = mkOut (res o6) (post o6)
             (evs o1 ++ evs o2 ++ evs o3 ++ evs o4 ++ evs o5 ++ evs o6).
Proof.
  intros o1 H1 o2 H2 o3 H3 o4 H4 o5 H5 o6.
  assert (Hin : bind (fire env self on_epoch_start None) (fun _ => epoch env self) (post o2)
                = mkOut (Raise FitCancel) (post o4) (evs o3 ++ evs o4)).
  { rewrite (bind_run _ _ _ _ H3). fold o3 o4. now rewrite H4. }
  assert (Hscope : with_event env self "epoch" (epoch env self) is_EpochCancel (post o2)
                   = mkOut (Raise FitCancel) (post o4) (evs o3 ++ evs o4)).
  { rewrite (with_event_propagates env self "epoch" on_epoch_start on_epoch_end
               (epoch env self) is_EpochCancel (post o2) FitCancel eq_refl);
      [now rewrite Hin | now rewrite Hin | reflexivity]. }
  assert (Hfwe : _fit_with_event env self (post o1)
                 = mkOut (Raise FitCancel) (post o4) (evs o2 ++ evs o3 ++ evs o4)).
  { unfold _fit_with_event. rewrite (bind_run _ _ _ _ H2). fold o2.
    rewrite (bind_raise _ _ (post o2) FitCancel) by now rewrite Hscope.
    now rewrite Hscope. }
  split; [now rewrite Hfwe|].
  assert (Hin' : bind (fire env self on_fit_start None) (fun _ => _fit_with_event env self) w
                 = mkOut (Raise FitCancel) (post o4) (evs o1 ++ evs o2 ++ evs o3 ++ evs o4)).
  { rewrite (bind_run _ _ _ _ H1). fold o1. now rewrite Hfwe. }
  assert (Hfit : with_event env self "fit" (_fit_with_event env self) is_FitCancel w
                 = mkOut (Ok tt) (post o5)
                         ((evs o1 ++ evs o2 ++ evs o3 ++ evs o4) ++ evs o5)).
  { rewrite (with_event_swallows env self "fit" on_fit_start on_fit_end
               (_fit_with_event env self) is_FitCancel w eq_refl).
    - rewrite Hin'. cbn [res post evs]. fold o5. now rewrite H5.
    - right. exists FitCancel. now rewrite Hin'. }
  rewrite fit_run_outcome, Hfit. cbn [res post evs]. fold o6.
  destruct (res o6) as [[]|x]; cbn [app]; now rewrite <- !app_assoc.
Qed.

End EngineBehaviour.

(** * More runs of the small instance *)

Lemma track_keeps_epoch (m : Mem) (v : Q) (metric : list (string * Q)) (mode_name : string) :
  current_epoch (tracker (snd (track_loss m v mode_name))) = current_epoch (tracker m)
  /\ current_epoch (tracker (snd (track_metrics m metric mode_name)))
     = current_epoch (tracker m).
Proof.
  unfold track_loss, track_metrics.
  destruct (mode m mode_name) as [l|e]; cbn [snd]; [|split; reflexivity].
  split; [reflexivity|].
  match goal with
  | |- context [fold_left _ metric ?m1] =>
      destruct (append_logs_fold mode_name metric m1) as (_ & _ & _ & _ & H & _)
  end.
  now rewrite H.
Qed.

Lemma calm_env_keeps_epoch : callbacks_keep_epoch calm_env.
Proof.
  intros c h p w. cbn [calm_env handler].
  destruct h, p as [[b o]|]; try reflexivity; cbn [toy_handler snd mem];
    destruct (track_keeps_epoch (snd (track_loss (mem w) (out_loss o) "train"))
                0 (out_metrics o) "train") as [_ H1];
    destruct (track_keeps_epoch (snd (track_loss (mem w) (out_loss o) "val"))
                0 (out_metrics o) "val") as [_ H2];
    destruct (track_keeps_epoch (mem w) (out_loss o) [] "train") as [H3 _];
    destruct (track_keeps_epoch (mem w) (out_loss o) [] "val") as [H4 _];
    congruence.
Qed.

Lemma fault_env_keeps_epoch : callbacks_keep_epoch fault_env.
Proof. exact calm_env_keeps_epoch. Qed.

(** X1, an instance. *)
Lemma track_loss_witness :
  logs (tracker (snd (track_loss used_mem (1 # 4) "val")))
  = logs (tracker used_mem)
    ++ [{| log_epoch := 3; log_key := "val/loss"; log_value := 1 # 4 |}].
Proof.
  destruct (track_loss_appends_one_record used_mem (1 # 4) "val" (or_intror eq_refl))
    as (_ & H & _).
  exact H.
Defined.

(** X2, an instance. *)
Lemma track_metrics_witness :
  List.length (logs (tracker (snd (track_metrics used_mem [("acc", 1 # 2); ("f1", 1 # 3)]
                                                 "train"))))
  = 6%nat.
Proof.
  destruct (track_metrics_appends_records used_mem [("acc", 1 # 2); ("f1", 1 # 3)] "train"
              (or_introl eq_refl))
    as (_ & _ & H & _).
  exact H.
Defined.

(** X3, an instance. *)
Lemma track_touches_one_mode_witness :
  val_loss (snd (track_loss used_mem (1 # 4) "train")) = val_loss used_mem
  /\ train_metrics (snd (track_metrics used_mem [("acc", 1 # 2)] "val"))
     = train_metrics used_mem.
Proof.
  assert (Ha : allocated (heap used_mem) (train (tracker used_mem))
               /\ allocated (heap used_mem) (val (tracker used_mem)))
    by (unfold allocated; simpl; lia).
  destruct Ha as [Ht Hv].
  destruct (track_touches_one_mode used_mem (1 # 4) [("acc", 1 # 2)]
              (fun H => O_S 0 H) Ht Hv)
    as (_ & _ & _ & _ & H1 & _ & _ & H2).
  split; [exact H1 | exact H2].
Defined.

(** X5, an instance: five validation batches, [steps_per_epoch = 2]. *)
Lemma val_one_epoch_witness :
  count_fired on_val_step_end
    (evs (val_one_epoch calm_env (calm_model None) (seq 1 5) (limited_world 2))) = 5%nat.
Proof.
  destruct (val_one_epoch_steps_every_batch calm_env (calm_model None) (seq 1 5)
              (limited_world 2) calm_env_quiet eq_refl)
    as (_ & _ & _ & H & _).
  exact H.
Defined.

(** X6, an instance: five batches in test mode. *)
Lemma test_mode_witness :
  hooks_of (evs (train_one_epoch calm_env (calm_test_model None) (seq 1 5) (limited_world 3)))
  = train_step_hooks
  /\ hooks_of (evs (val_one_epoch calm_env (calm_test_model None) (seq 1 5) (limited_world 3)))
     = val_step_hooks.
Proof.
  destruct (test_mode_steps_once calm_env (calm_test_model None) 1%nat (seq 2 4)
              (limited_world 3) calm_env_quiet eq_refl)
    as ((_ & H1) & (_ & H2)).
  split; [exact H1 | exact H2].
Defined.

(** X7, two instances: the bounds 3 and -1 on five batches. *)
Lemma train_one_epoch_bound_witness :
  count_fired on_train_step_end
    (evs (train_one_epoch calm_env (calm_model None) (seq 1 5) (limited_world 3))) = 4%nat
  /\ count_fired on_train_step_end
       (evs (train_one_epoch calm_env (calm_model None) (seq 1 5) (limited_world (-1))))
     = 1%nat.
Proof.
  split.
  - destruct (train_one_epoch_bound calm_env (calm_model None) 3 (seq 1 5) (limited_world 3)
                calm_env_quiet eq_refl ltac:(discriminate) eq_refl)
      as (_ & _ & _ & H).
    exact H.
  - destruct (train_one_epoch_bound calm_env (calm_model None) (-1) (seq 1 5)
                (limited_world (-1)) calm_env_quiet eq_refl ltac:(discriminate) eq_refl)
      as (_ & _ & _ & H).
    exact H.
Defined.

(** X8, an instance: two validation batches. *)
Lemma val_epoch_hooks_witness :
  hooks_of (evs (_val_epoch_with_event calm_env (calm_model (Some (toy_dataset_val 1 2)))
                   three_epochs_world))
  = on_val_epoch_start :: (val_step_hooks ++ val_step_hooks) ++ [on_val_epoch_end]
  /\ _val_epoch_with_event calm_env (calm_model (Some (toy_dataset 1))) three_epochs_world
     = mkOut (Ok tt) three_epochs_world [].
Proof.
  split.
  - destruct (val_epoch_hooks calm_env (calm_model (Some (toy_dataset_val 1 2)))
                (toy_dataset_val 1 2) three_epochs_world calm_env_quiet eq_refl eq_refl)
      as [_ H].
    destruct (H 1%nat [2%nat] eq_refl) as [_ Hh].
    exact Hh.
  - destruct (val_epoch_hooks calm_env (calm_model (Some (toy_dataset 1)))
                (toy_dataset 1) three_epochs_world calm_env_quiet eq_refl eq_refl)
      as [H _].
    exact (H eq_refl).
Defined.

(** X9, an instance: the learner fails on the batch [2]. *)
Lemma forward_fault_witness :
  let o := step fault_env (calm_model None) 2%nat three_epochs_world in
  res o = Raise (Fault "forward")
  /\ evs o = [Fired on_forward_start 0].
Proof.
  cbv zeta.
  destruct (forward_fault_skips_forward_end fault_env (calm_model None) 2%nat
              (Fault "forward") three_epochs_world eq_refl eq_refl)
    as (H1 & H2 & _).
  split; [exact H1 | exact H2].
Defined.

(** X10, an instance: three batches, the learner fails on the second. *)
Lemma train_step_fault_witness :
  let o := _train_epoch_with_event fault_env (calm_model (Some (toy_dataset 3)))
             three_epochs_world in
  res o = Raise (Fault "forward")
  /\ count_fired on_train_epoch_end (evs o) = 0%nat
  /\ count_fired on_train_step_start (evs o) = 2%nat.
Proof.
  cbv zeta.
  destruct (train_step_fault_ends_train_part fault_env (calm_model (Some (toy_dataset 3)))
              (toy_dataset 3) [1%nat] [3%nat] 2%nat (Fault "forward") three_epochs_world
              eq_refl eq_refl eq_refl eq_refl (fun i _ => eq_refl) eq_refl eq_refl)
    as [H1 H2].
  split; [now rewrite H1 | split; [exact H2 | now rewrite H1]].
Defined.

(** X11, an instance: three epochs, with a validation loader. *)
Lemma epoch_runs_witness :
  let o := epoch calm_env (calm_model (Some (toy_dataset_val 2 1))) three_epochs_world in
  res o = Ok tt
  /\ filter (fired on_epoch_start) (evs o)
     = [Fired on_epoch_start 0; Fired on_epoch_start 1; Fired on_epoch_start 2]
  /\ count_fired on_epoch_end (evs o) = 3%nat.
Proof.
  cbv zeta.
  destruct (epoch_runs_remaining_epochs calm_env (calm_model (Some (toy_dataset_val 2 1)))
              (toy_dataset_val 2 1) three_epochs_world calm_env_quiet eq_refl)
    as (H1 & H2 & _).
  destruct (H2 eq_refl) as (H3 & _ & H4).
  split; [exact H1 | split; [exact H3 | exact H4]].
Defined.

(** X12, an instance: no dataset, three epochs to run. *)
Lemma epoch_without_dataset_witness :
  let o := epoch calm_env (calm_model None) three_epochs_world in
  res o = Raise (AttributeError "train_dataloader")
  /\ evs o = [Fired on_epoch_start 0].
Proof.
  exact (epoch_without_dataset calm_env (calm_model None) three_epochs_world
           eq_refl eq_refl eq_refl).
Defined.

(** X13, an instance: after three epochs the tracker holds 2. *)
Lemma epoch_leaves_last_index_witness :
  let o := epoch calm_env (calm_model (Some (toy_dataset 2))) three_epochs_world in
  current_epoch (tracker (mem (post o))) = 2
  /\ range (current_epoch (tracker (mem (post o)))) 3 = [2].
Proof.
  exact (epoch_leaves_last_index calm_env (calm_model (Some (toy_dataset 2)))
           three_epochs_world calm_env_keeps_epoch eq_refl eq_refl eq_refl).
Defined.

(** X14, an instance: one callback registered before, two given. *)
Lemma fit_setup_registers_witness :
  res (fit_setup (toy_env false) (toy_model [TrainEval] None) (toy_dataset 2) 1 None
         [CancelFirstTrainStep; Quiet] true true (toy_world new_Mem))
  = Ok {| TEST := false; autodataset := Some (toy_dataset 2);
          callback_runner := [TrainEval; Quiet; CancelFirstTrainStep; Quiet];
          _compiled := true |}.
Proof.
  destruct (fit_setup_registers_in_order (toy_env false) (toy_model [TrainEval] None)
              (toy_dataset 2) (toy_dataset 2) 1 None [CancelFirstTrainStep; Quiet]
              true true (toy_world new_Mem) eq_refl eq_refl)
    as (H & _).
  exact H.
Defined.

(** X15, an instance: the data preparation fails in a second call made
    without [resume]; the history of the first call is still there. *)
Lemma fit_setup_failure_witness :
  let o := fit (toy_env true) (toy_model [TrainEval] None) (toy_dataset 2) 2 None []
               false false after_first_fit in
  res o = Raise (Fault "prepare_data")
  /\ mem (post o) = mem after_first_fit.
Proof.
  cbv zeta.
  destruct (fit_setup_failure_keeps_tracker (toy_env true) (toy_model [TrainEval] None)
              (toy_dataset 2) 2 None [] false false (Fault "prepare_data") after_first_fit
              eq_refl)
    as (H1 & H2 & _).
  split; [exact H1 | exact H2].
Defined.

(** X16, an instance: a callback raises [FitCancel] at the end of the first
    of three epochs. *)
Lemma fit_cancel_witness :
  let self := toy_model [TrainEval; RaiseOn on_epoch_end FitCancel] (Some (toy_dataset 1)) in
  let o := fit_run (toy_env false) self three_epochs_world in
  res o = Ok tt
  /\ hooks_of (evs o)
     = [on_fit_start; on_fit_start; on_epoch_start; on_epoch_start; on_train_epoch_start;
        on_train_step_start; on_forward_start; on_forward_end; on_train_step_end;
        on_train_epoch_end; on_epoch_end; on_fit_end; clean_hook].
Proof.
  cbv zeta.
  rewrite (proj2 (fit_cancel_ends_run (toy_env false)
                    (toy_model [TrainEval; RaiseOn on_epoch_end FitCancel]
                               (Some (toy_dataset 1)))
                    three_epochs_world eq_refl eq_refl eq_refl eq_refl eq_refl)).
  split; reflexivity.
Defined.
